(** * StudyTimeTracker: a shallow embedding of [db.py] and [main.py]

    The development follows the two source files.

    - [Py] holds the pieces of the Python runtime the program calls:
      [str.strip], [str.split], [str.replace], [int(str)], the decimal
      rendering of an [int], [str.join] and
      [datetime.strptime(_, "%H:%M")].
    - [Db] is [db.py]: the [study_logs] table and its three operations,
      each one running in a connection of its own that commits when its
      [with] block ends.
    - [Main] is [main.py]: [minutes_between] and the methods of
      [StudyLoggerWindow] that compute, collect and save the rows.

    Conventions of the model.  A Python [str] is the [string] of its UTF-8
    bytes, which keeps equality and the byte order SQLite sorts by.  The
    character classes (decimal digit, white space) are the ASCII ones;
    texts with digits or white space from beyond ASCII are outside the
    model.  A Python [int] is a [Z].  A raised exception is a value of
    [result]. *)

From Stdlib Require Import ZArith List String Ascii Bool Lia.
From Stdlib Require Import Permutation Sorted.
Import ListNotations.

Open Scope string_scope.
Open Scope Z_scope.

(* ================================================================= *)
(** ** The Python runtime *)

Module Py.

Inductive exn : Type := ValueError | IndexError.

Inductive result (A : Type) : Type :=
| Ok (a : A)
| Raise (e : exn).
Arguments Ok {A} a.
Arguments Raise {A} e.

Definition bind {A B : Type} (r : result A) (k : A -> result B) : result B :=
  match r with
  | Ok a => k a
  | Raise e => Raise e
  end.

Definition code (c : ascii) : Z := Z.of_N (N_of_ascii c).

(** [\d] and [str.isdigit] on the ASCII range.  Python counts the
    decimal digits of other scripts as digits too; the model does not. *)
Definition is_digit (c : ascii) : bool := (48 <=? code c) && (code c <=? 57).

Definition digit_val (c : ascii) : Z := code c - 48.

Definition digit_char (d : Z) : ascii := ascii_of_N (Z.to_N (48 + d)).

(** [str.isspace] on the ASCII range: TAB, LF, VT, FF, CR, the four
    separators 0x1c-0x1f and the space.  Python counts white space from
    beyond ASCII, such as U+00A0, too; the model does not. *)
Definition is_space (c : ascii) : bool :=
  ((9 <=? code c) && (code c <=? 13))
  || ((28 <=? code c) && (code c <=? 31))
  || (code c =? 32).

Definition is_empty (s : string) : bool :=
  match s with EmptyString => true | String _ _ => false end.

Fixpoint lstrip (s : string) : string :=
  match s with
  | EmptyString => EmptyString
  | String c r => if is_space c then lstrip r else s
  end.

Fixpoint rstrip (s : string) : string :=
  match s with
  | EmptyString => EmptyString
  | String c r =>
      let r' := rstrip r in
      if is_space c && is_empty r' then EmptyString else String c r'
  end.

(** [s.strip()] *)
Definition strip (s : string) : string := rstrip (lstrip s).

(** The white space [int] skips around an ASCII literal ([Py_ISSPACE]):
    TAB, LF, VT, FF, CR and the space, without the separators
    0x1c-0x1f. *)
Definition is_c_space (c : ascii) : bool :=
  ((9 <=? code c) && (code c <=? 13)) || (code c =? 32).

Fixpoint c_lstrip (s : string) : string :=
  match s with
  | EmptyString => EmptyString
  | String c r => if is_c_space c then c_lstrip r else s
  end.

Fixpoint c_rstrip (s : string) : string :=
  match s with
  | EmptyString => EmptyString
  | String c r =>
      let r' := c_rstrip r in
      if is_c_space c && is_empty r' then EmptyString else String c r'
  end.

Fixpoint split_from (cur : string) (s : string) : list string :=
  match s with
  | EmptyString => if is_empty cur then [] else [cur]
  | String c r =>
      if is_space c
      then (if is_empty cur then split_from EmptyString r
            else cur :: split_from EmptyString r)
      else split_from (cur ++ String c EmptyString) r
  end.

(** [s.split()]: the maximal runs of characters that are not white space. *)
Definition split (s : string) : list string := split_from EmptyString s.

(** [s.replace(old, new)] for a pattern [old] of one character, which is
    how the program calls it. *)
Fixpoint replace (old : ascii) (new : string) (s : string) : string :=
  match s with
  | EmptyString => EmptyString
  | String c r =>
      if Ascii.eqb c old then new ++ replace old new r
      else String c (replace old new r)
  end.

(** [sep.join(parts)] *)
Fixpoint join (sep : string) (parts : list string) : string :=
  match parts with
  | [] => EmptyString
  | [p] => p
  | p :: rest => p ++ sep ++ join sep rest
  end.

(** The digits of an integer literal as [int(str)] reads them: decimal
    digits, with single underscores allowed between two digits. *)
Fixpoint int_digits (acc : Z) (after_digit : bool) (s : string) : option Z :=
  match s with
  | EmptyString => if after_digit then Some acc else None
  | String c r =>
      if is_digit c then int_digits (10 * acc + digit_val c) true r
      else if Ascii.eqb c "_" && after_digit then int_digits acc false r
      else None
  end.

(** [int(s)] in base ten: surrounding white space is dropped, one sign
    may come first. *)
Definition int (s : string) : result Z :=
  let t := c_rstrip (c_lstrip s) in
  let '(neg, body) :=
    match t with
    | String c r =>
        if Ascii.eqb c "-" then (true, r)
        else if Ascii.eqb c "+" then (false, r)
        else (false, t)
    | EmptyString => (false, t)
    end in
  match int_digits 0 false body with
  | Some v => Ok (if neg then - v else v)
  | None => Raise ValueError
  end.

Fixpoint digits_onto (fuel : nat) (n : Z) (acc : string) : string :=
  match fuel with
  | O => acc
  | S fuel' =>
      let acc' := String (digit_char (n mod 10)) acc in
      if n / 10 =? 0 then acc' else digits_onto fuel' (n / 10) acc'
  end.

(** The decimal digits of [n >= 0]; the number of binary digits of [n]
    bounds the number of its decimal digits. *)
Definition digits (n : Z) : string :=
  digits_onto (S (Z.to_nat (Z.log2 n))) n EmptyString.

(** [str(n)], which is also how an f-string renders [{n}]. *)
Definition str (n : Z) : string :=
  if n <? 0 then String "-" (digits (- n)) else digits n.

(** *** [datetime.strptime(s, "%H:%M")]

    [_strptime] compiles the format to the regular expression
    [(?P<H>2[0-3]|[0-1]\d|\d):(?P<M>[0-5]\d|\d)], matches it at the start
    of the text with the usual leftmost-alternative backtracking, and
    raises [ValueError] when nothing matches or when text is left after
    the match. *)

(** The ways group [H] matches a prefix, in the order the alternatives are
    tried: the matched digits and what follows them. *)
Definition re_H (s : string) : list (string * string) :=
  match s with
  | String c1 r1 =>
      (match r1 with
       | String c2 r2 =>
           (if Ascii.eqb c1 "2" && (48 <=? code c2) && (code c2 <=? 51)
            then [(String c1 (String c2 EmptyString), r2)] else [])
           ++ (if (Ascii.eqb c1 "0" || Ascii.eqb c1 "1") && is_digit c2
               then [(String c1 (String c2 EmptyString), r2)] else [])
       | EmptyString => []
       end)
      ++ (if is_digit c1 then [(String c1 EmptyString, r1)] else [])
  | EmptyString => []
  end.

(** The same for group [M]. *)
Definition re_M (s : string) : list (string * string) :=
  match s with
  | String c1 r1 =>
      (match r1 with
       | String c2 r2 =>
           if (48 <=? code c1) && (code c1 <=? 53) && is_digit c2
           then [(String c1 (String c2 EmptyString), r2)] else []
       | EmptyString => []
       end)
      ++ (if is_digit c1 then [(String c1 EmptyString, r1)] else [])
  | EmptyString => []
  end.

(** The first way the whole expression matches: the two groups and the
    text left after the match. *)
Fixpoint re_match (hs : list (string * string))
  : option (string * string * string) :=
  match hs with
  | [] => None
  | (h, r) :: hs' =>
      match r with
      | String c r' =>
          if Ascii.eqb c ":" then
            match re_M r' with
            | (m, rest) :: _ => Some (h, m, rest)
            | [] => re_match hs'
            end
          else re_match hs'
      | EmptyString => re_match hs'
      end
  end.

(** A [datetime] of the day 1900-01-01, which is the day [strptime] gives
    when the format has no date, or of a later day: the seconds since
    1900-01-01T00:00:00.  A [timedelta] is a number of seconds. *)
Definition datetime : Type := Z.
Definition timedelta : Type := Z.

Definition datetime_of_time (hour minute : Z) : datetime :=
  hour * 3600 + minute * 60.

Definition timedelta_days (d : Z) : timedelta := d * 86400.

Definition total_seconds (d : timedelta) : Z := d.

Definition strptime_HM (s : string) : result datetime :=
  match re_match (re_H s) with
  | Some (h, m, EmptyString) =>
      bind (int h) (fun hour =>
      bind (int m) (fun minute =>
      Ok (datetime_of_time hour minute)))
  | Some (_, _, String _ _) => Raise ValueError
  | None => Raise ValueError
  end.

(** [sorted(rows, reverse=True)] on row numbers: the largest first. *)
Fixpoint insert_descending (i : nat) (sorted : list nat) : list nat :=
  match sorted with
  | [] => [i]
  | j :: rest =>
      if Nat.leb j i then i :: sorted else j :: insert_descending i rest
  end.

Definition sorted_reverse (rows : list nat) : list nat :=
  fold_right insert_descending [] rows.

End Py.

Notation "x <- r ;; k" := (Py.bind r (fun x => k))
  (at level 61, r at next level, right associativity).

(* ================================================================= *)
(** ** [db.py]: the persistence store *)

Module Db.

Import Py.

(** [@dataclass class StudyEntry] *)
Record StudyEntry : Type := mkStudyEntry {
  date_iso : string;          (* YYYY-MM-DD *)
  start_time : string;        (* HH:MM *)
  end_time : string;          (* HH:MM *)
  category : string;
  duration_minutes : Z
}.

(** A row of the table [study_logs]: the [AUTOINCREMENT] key and the five
    columns the program writes and reads.  The column [created_at] takes
    its default and no statement of the program reads it. *)
Record log_row : Type := mkRow {
  id : Z;
  study_date : string;
  row_start_time : string;
  row_end_time : string;
  row_category : string;
  row_duration_minutes : Z
}.

(** The content of the database file once [init_db] has created the
    table: the rows in rowid order and the largest key ever given
    ([sqlite_sequence]). *)
Record database : Type := mkDatabase {
  study_logs : list log_row;
  sqlite_sequence : Z
}.

(** The database file over time: its committed content, and the content
    each write transaction committed so far, oldest first.  Every
    function of [db.py] opens a connection of its own, and
    [with _get_conn(db_path) as conn:] commits when its block ends.
    Failures of the storage engine (input and output, locks, an integer
    outside the 64 bits of an SQLite [INTEGER]) are outside the model. *)
Record disk : Type := mkDisk {
  committed : database;
  history : list database
}.

Definition commit (db : database) (d : disk) : disk :=
  mkDisk db (history d ++ [db]).

Definition params : Type := (string * string * string * string * Z)%type.

Definition entry_params (e : StudyEntry) : params :=
  (date_iso e, start_time e, end_time e, category e, duration_minutes e).

(** [INSERT INTO study_logs (study_date, start_time, end_time, category,
    duration_minutes) VALUES (?, ?, ?, ?, ?);] for one tuple. *)
Definition sql_insert (p : params) (db : database) : database :=
  let '(d, s, e, c, m) := p in
  let k := sqlite_sequence db + 1 in
  mkDatabase (study_logs db ++ [mkRow k d s e c m]) k.

(** [conn.executemany(INSERT ..., rows)] *)
Fixpoint executemany_insert (rows : list params) (db : database) : database :=
  match rows with
  | [] => db
  | p :: rows' => executemany_insert rows' (sql_insert p db)
  end.

(** [DELETE FROM study_logs WHERE study_date = ?;] *)
Definition sql_delete (d : string) (db : database) : database :=
  mkDatabase
    (filter (fun r => negb (String.eqb (study_date r) d)) (study_logs db))
    (sqlite_sequence db).

(** [ORDER BY start_time ASC]: the column is [TEXT] with the default
    collation [BINARY], which compares the bytes.  SQL leaves the order
    of rows with equal keys open; the model keeps them in rowid order. *)
Fixpoint order_insert (r : log_row) (sorted : list log_row) : list log_row :=
  match sorted with
  | [] => [r]
  | r' :: rest =>
      if String.leb (row_start_time r) (row_start_time r')
      then r :: sorted
      else r' :: order_insert r rest
  end.

Definition order_by_start_time (rows : list log_row) : list log_row :=
  fold_right order_insert [] rows.

(** [SELECT study_date, start_time, end_time, category, duration_minutes
    FROM study_logs WHERE study_date = ? ORDER BY start_time ASC;] *)
Definition sql_select (d : string) (db : database) : list params :=
  map (fun r => (study_date r, row_start_time r, row_end_time r,
                 row_category r, row_duration_minutes r))
      (order_by_start_time
         (filter (fun r => String.eqb (study_date r) d) (study_logs db))).

(** [insert_entries(entries)] *)
Definition insert_entries (entries : list StudyEntry) (dk : disk) : disk :=
  let rows := map entry_params entries in
  match rows with
  | [] => dk
  | _ :: _ => commit (executemany_insert rows (committed dk)) dk
  end.

(** [delete_entries_for_date(date_iso)] *)
Definition delete_entries_for_date (d : string) (dk : disk) : disk :=
  commit (sql_delete d (committed dk)) dk.

(** [fetch_entries(date_iso)]; a [SELECT] opens no transaction, so the
    [with] block has nothing to commit. *)
Definition fetch_entries (d : string) (dk : disk) : list StudyEntry :=
  map (fun row : params =>
         let '(r0, r1, r2, r3, r4) := row in mkStudyEntry r0 r1 r2 r3 r4)
      (sql_select d (committed dk)).

End Db.

(* ================================================================= *)
(** ** [main.py]: the session form *)

Module Main.

Import Py Db.

(** [minutes_between(start_str, end_str)] *)
Definition minutes_between (start_str end_str : string) : result Z :=
  start <- strptime_HM start_str ;;
  end_ <- strptime_HM end_str ;;
  let end_ := if end_ <? start then end_ + timedelta_days 1 else end_ in
  Ok (total_seconds (end_ - start) / 60).

(** The methods are modelled as they run when they are called; the
    wiring of the Qt signals to them is not part of the model. *)

(** One row of the [QTableWidget]: the text of the items in the columns
    From, To, Duration and Notes ([None] where [table.item] gives no
    item), and the current text of the [QComboBox] in the column Category
    ([None] where [table.cellWidget] is no [QComboBox]). *)
Record table_row : Type := mkTableRow {
  start_item : option string;
  end_item : option string;
  category_widget : option string;
  duration_item : option string;
  notes_item : option string
}.

(** The part of [StudyLoggerWindow] the methods below read and write. *)
Record window : Type := mkWindow {
  date_picker : string;     (* date().toString("yyyy-MM-dd") *)
  table : list table_row;
  total_label : string
}.

Inductive icon : Type := Warning | Information.

(** A [QMessageBox] shown to the user: icon, title, text. *)
Definition message_box : Type := (icon * string * string)%type.

(** What a method can change outside the window: the database file and
    the dialogs shown so far, oldest first. *)
Record world : Type := mkWorld {
  storage : disk;
  dialogs : list message_box
}.

(** The em dash the Duration column shows for a row without a valid
    pair of times. *)
Definition placeholder : string := "—".

(** [_format_minutes(minutes)] *)
Definition _format_minutes (minutes : Z) : string :=
  let hours := minutes / 60 in
  let mins := minutes mod 60 in
  if negb (hours =? 0) then str hours ++ "h " ++ str mins ++ "m"
  else str mins ++ "m".

(** [_parse_duration_text(text)] *)
Definition _parse_duration_text (text : string) : result Z :=
  if String.eqb text placeholder || is_empty text then Ok 0
  else
    let parts := split (replace "m" "" (replace "h" "" text)) in
    p <- match parts with
         | [hours; mins] => Ok (hours, mins)
         | p0 :: _ => Ok ("0", p0)
         | [] => Raise IndexError
         end ;;
    let '(hours, mins) := p in
    h <- int hours ;;
    m <- int mins ;;
    Ok (h * 60 + m).

(** The loop of [update_total_label]. *)
Fixpoint total_of_rows (rows : list table_row) (total : Z) : result Z :=
  match rows with
  | [] => Ok total
  | r :: rows' =>
      match duration_item r with
      | Some text =>
          d <- _parse_duration_text text ;;
          total_of_rows rows' (total + d)
      | None => total_of_rows rows' total
      end
  end.

(** [update_total_label()] *)
Definition update_total_label (w : window) : result window :=
  total <- total_of_rows (table w) 0 ;;
  let hours := total / 60 in
  let mins := total mod 60 in
  Ok (mkWindow (date_picker w) (table w)
        ("Total: " ++ str hours ++ "h " ++ str mins ++ "m")).

Definition set_duration_text (r : table_row) (text : string) : table_row :=
  mkTableRow (start_item r) (end_item r) (category_widget r)
             (Some text) (notes_item r).

Fixpoint set_row (i : nat) (r : table_row) (rows : list table_row)
  : list table_row :=
  match rows, i with
  | [], _ => []
  | _ :: rest, O => r :: rest
  | r0 :: rest, S i' => r0 :: set_row i' r rest
  end.

(** [_update_duration_for_row(row)] *)
Definition _update_duration_for_row (row : nat) (w : window) : result window :=
  match nth_error (table w) row with
  | Some r =>
      match start_item r, end_item r, duration_item r with
      | Some s, Some e, Some _ =>
          let start_text := strip s in
          let end_text := strip e in
          text <- match minutes_between start_text end_text with
                  | Ok minutes => Ok (_format_minutes minutes)
                  | Raise ValueError => Ok placeholder
                  | Raise e => Raise e
                  end ;;
          update_total_label
            (mkWindow (date_picker w)
                      (set_row row (set_duration_text r text) (table w))
                      (total_label w))
      | _, _, _ => Ok w
      end
  | None => Ok w
  end.

Definition CATEGORY_OPTIONS : list string :=
  ["GenAI"; "Operating Systems"; "Digital Electronics and Logic Design"].

(** [add_empty_row()]: a new last row with empty times, the first
    category selected and the placeholder as duration. *)
Definition add_empty_row (w : window) : result window :=
  let row := List.length (table w) in
  let r := mkTableRow (Some "") (Some "") (Some (hd "" CATEGORY_OPTIONS))
                      (Some placeholder) (Some "") in
  _update_duration_for_row row
    (mkWindow (date_picker w) (table w ++ [r]) (total_label w)).

(** The current text of the [QComboBox] that [_append_entry] makes for
    the category [c].  The selector holds [CATEGORY_OPTIONS] and shows the
    first of them.  [setCurrentText] selects the option equal to [c] when
    [c in CATEGORY_OPTIONS]; otherwise the source calls [setEditText],
    which does nothing on a selector that was never made editable, and
    the first option stays. *)
Definition selector_text (c : string) : string :=
  if existsb (String.eqb c) CATEGORY_OPTIONS then c
  else hd "" CATEGORY_OPTIONS.

(** [_append_entry(entry)] *)
Definition _append_entry (entry : StudyEntry) (w : window) : window :=
  mkWindow (date_picker w)
    (table w ++ [mkTableRow (Some (start_time entry)) (Some (end_time entry))
                            (Some (selector_text (category entry)))
                            (Some (_format_minutes (duration_minutes entry)))
                            (Some "")])
    (total_label w).

(** The loop of [collect_entries] from the row of index [row] on, the
    two lists being appended to as the loop goes. *)
Fixpoint collect_from (date_iso : string) (row : Z) (rows : list table_row)
    (entries : list StudyEntry) (errors : list string)
  : result (list StudyEntry * list string) :=
  match rows with
  | [] => Ok (entries, errors)
  | r :: rows' =>
      match start_item r, end_item r, category_widget r with
      | Some s, Some e, Some current_text =>
          let start := strip s in
          let end_ := strip e in
          let category :=
            if is_empty current_text then "Other" else current_text in
          match minutes_between start end_ with
          | Ok duration_min =>
              collect_from date_iso (row + 1) rows'
                (entries ++ [mkStudyEntry date_iso start end_ category duration_min])
                errors
          | Raise ValueError =>
              collect_from date_iso (row + 1) rows' entries
                (errors ++ ["Row " ++ str (row + 1)
                              ++ ": invalid time format (use HH:MM)."])
          | Raise e => Raise e
          end
      | _, _, _ => collect_from date_iso (row + 1) rows' entries errors
      end
  end.

(** [collect_entries()] *)
Definition collect_entries (w : window)
  : result (list StudyEntry * list string) :=
  collect_from (date_picker w) 0 (table w) [] [].

Definition show (b : message_box) (wd : world) : world :=
  mkWorld (storage wd) (dialogs wd ++ [b]).

Definition on_storage (f : disk -> disk) (wd : world) : world :=
  mkWorld (f (storage wd)) (dialogs wd).

Definition newline : string := String "010" "".

(** [save_entries()] *)
Definition save_entries (w : window) (wd : world) : result unit * world :=
  match collect_entries w with
  | Raise e => (Raise e, wd)
  | Ok (entries, errors) =>
      match errors with
      | _ :: _ =>
          (Ok tt, show (Warning, "Validation errors", join newline errors) wd)
      | [] =>
          match entries with
          | [] =>
              (Ok tt,
               show (Information, "Nothing to save", "No rows to save.") wd)
          | _ :: _ =>
              let date_iso := date_picker w in
              let wd := on_storage (delete_entries_for_date date_iso) wd in
              let wd := on_storage (insert_entries entries) wd in
              (Ok tt,
               show (Information, "Saved", "Entries saved to database.") wd)
          end
      end
  end.

(** [load_entries_for_date()] *)
Definition load_entries_for_date (w : window) (wd : world) : result window :=
  let date_iso := date_picker w in
  let entries := fetch_entries date_iso (storage wd) in
  let w0 := mkWindow (date_picker w) [] (total_label w) in
  let w1 := fold_left (fun acc entry => _append_entry entry acc) entries w0 in
  w2 <- (match entries with [] => add_empty_row w1 | _ :: _ => Ok w1 end) ;;
  update_total_label w2.

(** [table.removeRow(row)], which does nothing for a row the table does
    not have. *)
Fixpoint removeRow (row : nat) (rows : list table_row) : list table_row :=
  match rows, row with
  | [], _ => []
  | _ :: rest, O => rest
  | r :: rest, S row' => r :: removeRow row' rest
  end.

(** [remove_selected_row()], [indexes] being the numbers of the rows
    that [selectionModel().selectedRows()] gives. *)
Definition remove_selected_row (indexes : list nat) (w : window)
  : result window :=
  let rows :=
    fold_left (fun rows row => removeRow row rows) (sorted_reverse indexes)
              (table w) in
  update_total_label (mkWindow (date_picker w) rows (total_label w)).

(** [_on_time_changed(item)], for the item of row [row] and column
    [column]. *)
Definition _on_time_changed (row : nat) (column : Z) (w : window)
  : result window :=
  if negb ((column =? 0) || (column =? 1)) then Ok w
  else _update_duration_for_row row w.

End Main.

(* ================================================================= *)
(** ** The words of the specification *)

Module Spec.

Import Py Db Main.

Definition two_digit_value (c1 c2 : ascii) : Z :=
  10 * digit_val c1 + digit_val c2.

(** A field written with one or two decimal digits, its value below
    [bound]. *)
Definition field_value (bound : Z) (s : string) : option Z :=
  match s with
  | String c EmptyString => if is_digit c then Some (digit_val c) else None
  | String c1 (String c2 EmptyString) =>
      if is_digit c1 && is_digit c2 && (two_digit_value c1 c2 <? bound)
      then Some (two_digit_value c1 c2) else None
  | _ => None
  end.

(** The text before the first colon and the text after it. *)
Fixpoint cut_at_colon (s : string) : option (string * string) :=
  match s with
  | EmptyString => None
  | String c r =>
      if Ascii.eqb c ":" then Some (EmptyString, r)
      else match cut_at_colon r with
           | Some (a, b) => Some (String c a, b)
           | None => None
           end
  end.

(** A time of day as the format [%H:%M] admits it: an hour from 0 to 23
    and a minute from 0 to 59, each written with one or two digits, with
    a colon between them. *)
Definition time_of_text (s : string) : option (Z * Z) :=
  match cut_at_colon s with
  | Some (a, b) =>
      match field_value 24 a, field_value 60 b with
      | Some h, Some m => Some (h, m)
      | _, _ => None
      end
  | None => None
  end.

(** The form [HH:MM]: two digits, a colon, two digits, denoting an hour
    from 00 to 23 and a minute from 00 to 59. *)
Definition is_HH_MM (s : string) : bool :=
  match s with
  | String c1 (String c2 (String c (String c3 (String c4 EmptyString)))) =>
      is_digit c1 && is_digit c2 && Ascii.eqb c ":"
      && is_digit c3 && is_digit c4
      && (two_digit_value c1 c2 <? 24) && (two_digit_value c3 c4 <? 60)
  | _ => false
  end.

(** Minutes since midnight. *)
Definition minute_of_day (t : Z * Z) : Z := fst t * 60 + snd t.

(** [replace_day(date, entries)]: the day replace, which the program
    performs as the two calls that end [save_entries]. *)
Definition replace_day (d : string) (entries : list StudyEntry) (dk : disk)
  : disk :=
  insert_entries entries (delete_entries_for_date d dk).

(** [fetch_day(date)] *)
Definition fetch_day (d : string) (dk : disk) : list StudyEntry :=
  fetch_entries d dk.

(** The duration from the time [ts] to the time [te], which is on the
    next day when it is the earlier of the two. *)
Definition duration_between (ts te : Z * Z) : Z :=
  if minute_of_day te <? minute_of_day ts
  then minute_of_day te - minute_of_day ts + 1440
  else minute_of_day te - minute_of_day ts.

(** What the Duration column shows for the texts [s] and [e] of a row:
    the duration when both denote a time of day, the placeholder when
    one of them does not. *)
Definition duration_text (s e : string) : string :=
  match time_of_text (strip s), time_of_text (strip e) with
  | Some ts, Some te => _format_minutes (duration_between ts te)
  | _, _ => placeholder
  end.

(** A row whose time fields fail to parse. *)
Definition fails_to_parse (r : table_row) : bool :=
  match start_item r, end_item r, category_widget r with
  | Some s, Some e, Some _ =>
      match time_of_text (strip s), time_of_text (strip e) with
      | Some _, Some _ => false
      | _, _ => true
      end
  | _, _, _ => false
  end.

(** The numbers, counted from [k + 1], of the rows that fail to parse. *)
Fixpoint offending_rows_from (k : Z) (rows : list table_row) : list Z :=
  match rows with
  | [] => []
  | r :: rows' =>
      (if fails_to_parse r then [k + 1] else [])
        ++ offending_rows_from (k + 1) rows'
  end.

(** The row numbers the user sees count from one. *)
Definition offending_rows (rows : list table_row) : list Z :=
  offending_rows_from 0 rows.

Definition error_line (k : Z) : string :=
  "Row " ++ str k ++ ": invalid time format (use HH:MM).".

(** A row whose time fields fail to parse at a save: it has its two time
    items and its category selector, and [minutes_between] raises
    [ValueError] on its two texts, stripped. *)
Definition raises_at_save (r : table_row) : bool :=
  match start_item r, end_item r, category_widget r with
  | Some s, Some e, Some _ =>
      match minutes_between (strip s) (strip e) with
      | Raise ValueError => true
      | _ => false
      end
  | _, _, _ => false
  end.

(** The numbers, counted from [k + 1], of the rows that fail to parse at
    a save. *)
Fixpoint refused_rows_from (k : Z) (rows : list table_row) : list Z :=
  match rows with
  | [] => []
  | r :: rows' =>
      (if raises_at_save r then [k + 1] else [])
        ++ refused_rows_from (k + 1) rows'
  end.

Definition refused_rows (rows : list table_row) : list Z :=
  refused_rows_from 0 rows.

(** A text of ASCII characters only.  On such a text the digits and the
    white space of the model are those of Python. *)
Fixpoint is_ascii_text (s : string) : bool :=
  match s with
  | EmptyString => true
  | String c r => (code c <? 128) && is_ascii_text r
  end.

(** The entry a row that parses is saved as. *)
Definition entry_of_table_row (d : string) (r : table_row) : list StudyEntry :=
  match start_item r, end_item r, category_widget r with
  | Some s, Some e, Some c =>
      match time_of_text (strip s), time_of_text (strip e) with
      | Some ts, Some te =>
          [mkStudyEntry d (strip s) (strip e)
                        (if is_empty c then "Other" else c)
                        (duration_between ts te)]
      | _, _ => []
      end
  | _, _, _ => []
  end.

Definition parsed_entries (d : string) (rows : list table_row)
  : list StudyEntry :=
  flat_map (entry_of_table_row d) rows.

(** What a row contributes to the running total: nothing when its
    duration display is missing, empty or the placeholder, and its
    duration when the display is a duration text. *)
Inductive shows (r : table_row) : Z -> Prop :=
| shows_no_item : duration_item r = None -> shows r 0
| shows_empty : duration_item r = Some "" -> shows r 0
| shows_placeholder : duration_item r = Some placeholder -> shows r 0
| shows_duration (m : Z) :
    duration_item r = Some (_format_minutes m) -> shows r m.

Definition sum (ds : list Z) : Z := fold_right Z.add 0 ds.

(** The text of the total label for a total of [total] minutes. *)
Definition total_text (total : Z) : string :=
  "Total: " ++ str (total / 60) ++ "h " ++ str (total mod 60) ++ "m".

(** Each element is below the next one. *)
Fixpoint ascending {A : Type} (le : A -> A -> bool) (l : list A) : bool :=
  match l with
  | [] => true
  | a :: tl =>
      match tl with
      | [] => true
      | b :: _ => le a b && ascending le tl
      end
  end.

(** Ascending [start_time] as the store compares it: as text. *)
Definition start_text_leb (a b : StudyEntry) : bool :=
  String.leb (start_time a) (start_time b).

(** Ascending [start_time] as times of day. *)
Definition start_chrono_leb (a b : StudyEntry) : bool :=
  match time_of_text (start_time a), time_of_text (start_time b) with
  | Some ta, Some tb => minute_of_day ta <=? minute_of_day tb
  | _, _ => false
  end.

End Spec.

(* ================================================================= *)
(** ** Auxiliary notions of the proofs *)

Module Aux.

Import Py Db Main Spec.

Fixpoint all_chars (P : ascii -> bool) (s : string) : bool :=
  match s with
  | EmptyString => true
  | String c r => P c && all_chars P r
  end.

Definition not_space (c : ascii) : bool := negb (is_space c).

(** The characters of [str n]: digits and the minus sign. *)
Definition numeral_char (c : ascii) : bool := is_digit c || Ascii.eqb c "-".

(** The entry a row of the table is read back as. *)
Definition entry_of_row (r : log_row) : StudyEntry :=
  mkStudyEntry (study_date r) (row_start_time r) (row_end_time r)
               (row_category r) (row_duration_minutes r).

(** The rows [executemany] adds for [entries] after the key [k]. *)
Fixpoint new_rows (k : Z) (entries : list StudyEntry) : list log_row :=
  match entries with
  | [] => []
  | e :: entries' =>
      mkRow (k + 1) (date_iso e) (start_time e) (end_time e) (category e)
            (duration_minutes e)
      :: new_rows (k + 1) entries'
  end.

Definition row_leb (r1 r2 : log_row) : bool :=
  String.leb (row_start_time r1) (row_start_time r2).

(** A row whose duration display is one the program writes. *)
Definition displayed (r : table_row) : Prop := exists v, shows r v.

(** The row [_append_entry] adds for a stored entry: the stored times,
    the category when it is one of [CATEGORY_OPTIONS] and the first
    option otherwise, the stored duration as text, empty notes. *)
Definition row_of_entry (e : StudyEntry) : table_row :=
  mkTableRow (Some (start_time e)) (Some (end_time e))
             (Some (selector_text (category e)))
             (Some (_format_minutes (duration_minutes e))) (Some "").

(** The row [add_empty_row] adds. *)
Definition blank_row : table_row :=
  mkTableRow (Some "") (Some "") (Some "GenAI") (Some placeholder) (Some "").

(** Entries in ascending order of [start_time] as text, entries with the
    same [start_time] in the order given. *)
Fixpoint insert_entry (e : StudyEntry) (sorted : list StudyEntry)
  : list StudyEntry :=
  match sorted with
  | [] => [e]
  | e' :: rest =>
      if String.leb (start_time e) (start_time e') then e :: sorted
      else e' :: insert_entry e rest
  end.

Definition sort_entries (entries : list StudyEntry) : list StudyEntry :=
  fold_right insert_entry [] entries.

(** The entries the store holds for the day [d], in rowid order. *)
Definition stored (d : string) (dk : disk) : list StudyEntry :=
  map entry_of_row
      (filter (fun r => String.eqb (study_date r) d)
              (study_logs (committed dk))).

(** The entries of [entries] that are dated [d]. *)
Definition dated (d : string) (entries : list StudyEntry) : list StudyEntry :=
  filter (fun e => String.eqb (date_iso e) d) entries.

(** The rows of [rows], numbered from [i], whose number is not in
    [selected]. *)
Fixpoint unselected (i : nat) (selected : list nat) (rows : list table_row)
  : list table_row :=
  match rows with
  | [] => []
  | r :: rest =>
      if existsb (Nat.eqb i) selected then unselected (S i) selected rest
      else r :: unselected (S i) selected rest
  end.

(** An entry as [collect_entries] makes them for the date [d]: times
    without white space around them that denote times of day, the
    duration between them, a category that is not empty. *)
Definition saved_entry (d : string) (e : StudyEntry) : Prop :=
  date_iso e = d
  /\ strip (start_time e) = start_time e
  /\ strip (end_time e) = end_time e
  /\ is_empty (category e) = false
  /\ minutes_between (start_time e) (end_time e) = Ok (duration_minutes e)
  /\ 0 <= duration_minutes e < 1440.

(** An entry whose category is one the selector offers. *)
Definition listed_category (e : StudyEntry) : Prop :=
  In (category e) CATEGORY_OPTIONS.

(** An entry with the category its row shows once it is loaded. *)
Definition reselected (e : StudyEntry) : StudyEntry :=
  mkStudyEntry (date_iso e) (start_time e) (end_time e)
               (selector_text (category e)) (duration_minutes e).

(** Two rows with the same time texts and the same category selector. *)
Definition same_input (r1 r2 : table_row) : Prop :=
  start_item r1 = start_item r2
  /\ end_item r1 = end_item r2
  /\ category_widget r1 = category_widget r2.

End Aux.

(* ================================================================= *)
(** ** Concrete forms and stores *)

Module Examples.

Import Py Db Main Spec.

Definition day : string := "2024-05-01".

Definition empty_disk : disk := mkDisk (mkDatabase [] 0) [].

(** A row as [add_empty_row] makes it, with the two times typed in. *)
Definition typed_row (start end_ : string) : table_row :=
  mkTableRow (Some start) (Some end_) (Some "GenAI") (Some placeholder)
             (Some "").

(** A row that shows the duration text [t]. *)
Definition shown_row (start end_ t : string) : table_row :=
  mkTableRow (Some start) (Some end_) (Some "GenAI") (Some t) (Some "").

Definition form_of (rows : list table_row) : window :=
  mkWindow day rows "Total: 0h 0m".

(** A store that holds a morning session of [day]. *)
Definition morning : StudyEntry := mkStudyEntry day "08:00" "09:00" "GenAI" 60.
Definition disk_with_morning : disk := replace_day day [morning] empty_disk.

(** A form with an evening session of the same day. *)
Definition evening_form : window := form_of [shown_row "20:00" "21:00" "1h 0m"].

Definition evening : StudyEntry := mkStudyEntry day "20:00" "21:00" "GenAI" 60.

(** The world after the evening form is saved over the morning store. *)
Definition after_evening_save : world :=
  snd (save_entries evening_form (mkWorld disk_with_morning [])).

(** The table once the rows of [day] are deleted from the morning
    store. *)
Definition cleared : database := mkDatabase [] 1.

(** A form with the single row 09:00 to 10:30, as typed. *)
Definition one_row_form (d : string) : window :=
  mkWindow d [typed_row "09:00" "10:30"] "Total: 0h 0m".

(** Two sessions whose start times are written without a leading zero
    and with two digits. *)
Definition at_nine : StudyEntry := mkStudyEntry day "9:00" "9:30" "GenAI" 30.
Definition at_ten : StudyEntry := mkStudyEntry day "10:00" "11:00" "GenAI" 60.

(** A form whose first row has the start ["bad"]. *)
Definition bad_form : window :=
  form_of [shown_row "bad" "10:00" placeholder;
           shown_row "09:00" "10:30" "1h 30m"].

(** A form that shows 90 minutes, a placeholder and 45 minutes. *)
Definition totals_form : window :=
  form_of [shown_row "09:00" "10:30" "1h 30m";
           shown_row "" "" placeholder;
           shown_row "23:30" "00:15" "45m"].

End Examples.

Import Py Db Main Spec Aux Examples.

(* ================================================================= *)
(** ** Characters and decimal numerals *)

Section Characters.

Lemma code_inj (c1 c2 : ascii) : code c1 = code c2 -> c1 = c2.
Proof.
  unfold code. intros H. apply N2Z.inj in H.
  rewrite <- (ascii_N_embedding c1), <- (ascii_N_embedding c2).
  now rewrite H.
Qed.

Lemma eqb_code (c1 c2 : ascii) : Ascii.eqb c1 c2 = (code c1 =? code c2).
Proof.
  destruct (Ascii.eqb c1 c2) eqn:E; symmetry.
  - apply Ascii.eqb_eq in E. subst. apply Z.eqb_refl.
  - apply Z.eqb_neq. intros H. apply code_inj in H.
    apply Ascii.eqb_neq in E. contradiction.
Qed.

Lemma code_range (c : ascii) : 0 <= code c < 256.
Proof.
  unfold code. pose proof (N_ascii_bounded c) as H. lia.
Qed.

Lemma is_digit_range (c : ascii) :
  is_digit c = true <-> 48 <= code c <= 57.
Proof. unfold is_digit. lia. Qed.

Lemma digit_val_range (c : ascii) :
  is_digit c = true -> 0 <= digit_val c <= 9.
Proof. rewrite is_digit_range. unfold digit_val. lia. Qed.

Lemma code_digit_char (d : Z) : 0 <= d <= 9 -> code (digit_char d) = 48 + d.
Proof.
  intros H. unfold code, digit_char.
  rewrite N_ascii_embedding by lia. lia.
Qed.

Lemma is_digit_digit_char (d : Z) : 0 <= d <= 9 -> is_digit (digit_char d) = true.
Proof. intros H. apply is_digit_range. rewrite code_digit_char; lia. Qed.

Lemma digit_val_digit_char (d : Z) : 0 <= d <= 9 -> digit_val (digit_char d) = d.
Proof. intros H. unfold digit_val. rewrite code_digit_char; lia. Qed.

Lemma digit_not_space (c : ascii) : is_digit c = true -> is_space c = false.
Proof. rewrite is_digit_range. unfold is_space. lia. Qed.

Lemma digit_not_char (c k : ascii) :
  is_digit c = true -> is_digit k = false -> Ascii.eqb c k = false.
Proof.
  intros Hc Hk. destruct (Ascii.eqb c k) eqn:E; [|reflexivity].
  apply Ascii.eqb_eq in E. congruence.
Qed.

End Characters.

(* ================================================================= *)
(** ** Strings without white space, and decimal numerals *)

Section Numerals.

Lemma append_nil_r (s : string) : s ++ "" = s.
Proof. induction s as [|c s IH]; simpl; [reflexivity | now rewrite IH]. Qed.

Lemma append_assoc (s t u : string) : (s ++ t) ++ u = s ++ (t ++ u).
Proof. induction s as [|c s IH]; simpl; [reflexivity | now rewrite IH]. Qed.

Lemma all_chars_app (P : ascii -> bool) (s t : string) :
  all_chars P (s ++ t) = all_chars P s && all_chars P t.
Proof.
  induction s as [|c s IH]; simpl; [reflexivity|].
  now rewrite IH, andb_assoc.
Qed.

Lemma all_chars_impl (P Q : ascii -> bool) (s : string) :
  (forall c, P c = true -> Q c = true) ->
  all_chars P s = true -> all_chars Q s = true.
Proof.
  intros HPQ. induction s as [|c s IH]; simpl; [reflexivity|].
  intros H. apply andb_true_iff in H as [Hc Hs].
  now rewrite (HPQ _ Hc), IH.
Qed.

Lemma rstrip_not_space (s : string) :
  all_chars not_space s = true -> rstrip s = s.
Proof.
  induction s as [|c s IH]; simpl; [reflexivity|].
  intros H. apply andb_true_iff in H as [Hc Hs].
  rewrite (IH Hs). unfold not_space in Hc.
  apply negb_true_iff in Hc. now rewrite Hc.
Qed.

Lemma lstrip_not_space (s : string) :
  all_chars not_space s = true -> lstrip s = s.
Proof.
  destruct s as [|c s]; simpl; [reflexivity|].
  intros H. apply andb_true_iff in H as [Hc _].
  unfold not_space in Hc. apply negb_true_iff in Hc. now rewrite Hc.
Qed.

Lemma strip_not_space (s : string) :
  all_chars not_space s = true -> strip s = s.
Proof.
  intros H. unfold strip. now rewrite (lstrip_not_space _ H), rstrip_not_space.
Qed.

Lemma not_space_c_space (c : ascii) : not_space c = true -> is_c_space c = false.
Proof. unfold not_space, is_space, is_c_space. lia. Qed.

Lemma c_strip_not_space (s : string) :
  all_chars not_space s = true -> c_rstrip (c_lstrip s) = s.
Proof.
  intros H.
  assert (Hl : c_lstrip s = s).
  { destruct s as [|c s]; simpl; [reflexivity|].
    simpl in H. apply andb_true_iff in H as [Hc _].
    now rewrite (not_space_c_space _ Hc). }
  rewrite Hl. clear Hl.
  induction s as [|c s IH]; simpl; [reflexivity|].
  simpl in H. apply andb_true_iff in H as [Hc Hs].
  now rewrite (IH Hs), (not_space_c_space _ Hc).
Qed.

Lemma numeral_char_not_space (c : ascii) :
  numeral_char c = true -> not_space c = true.
Proof.
  unfold numeral_char, not_space, is_space, is_digit.
  rewrite eqb_code. change (code "-") with 45. lia.
Qed.

Lemma digit_numeral_char (c : ascii) : is_digit c = true -> numeral_char c = true.
Proof. unfold numeral_char. now intros ->. Qed.

Lemma digits_onto_chars (fuel : nat) : forall n acc,
  0 <= n -> all_chars is_digit acc = true ->
  all_chars is_digit (digits_onto fuel n acc) = true.
Proof.
  induction fuel as [|fuel IH]; intros n acc Hn Hacc; simpl; [assumption|].
  assert (Hd : all_chars is_digit (String (digit_char (n mod 10)) acc) = true).
  { simpl. rewrite Hacc, is_digit_digit_char; [reflexivity|].
    pose proof (Z.mod_pos_bound n 10). lia. }
  destruct (n / 10 =? 0); [exact Hd|].
  apply IH; [apply Z.div_pos; lia | exact Hd].
Qed.

Lemma digits_onto_nonempty (fuel : nat) : forall n acc,
  is_empty (digits_onto (S fuel) n acc) = false.
Proof.
  induction fuel as [|fuel IH]; intros n acc.
  - simpl. now destruct (n / 10 =? 0).
  - change (digits_onto (S (S fuel)) n acc)
      with (if n / 10 =? 0 then String (digit_char (n mod 10)) acc
            else digits_onto (S fuel) (n / 10) (String (digit_char (n mod 10)) acc)).
    destruct (n / 10 =? 0); [reflexivity | apply IH].
Qed.

Lemma int_digits_digit (a : Z) (b : bool) (c : ascii) (r : string) :
  is_digit c = true ->
  int_digits a b (String c r) = int_digits (10 * a + digit_val c) true r.
Proof. intros H. cbn [int_digits]. now rewrite H. Qed.

(** Reading a numeral that was written onto [rest] leaves its value in
    the accumulator. *)
Lemma int_digits_onto (fuel : nat) : forall n rest b,
  0 <= n < 10 ^ Z.of_nat (S fuel) ->
  int_digits 0 b (digits_onto (S fuel) n rest) = int_digits n true rest.
Proof.
  induction fuel as [|fuel IH]; intros n rest b Hn;
    pose proof (Z.mod_pos_bound n 10 ltac:(lia)) as Hm;
    pose proof (Z.div_mod n 10 ltac:(lia)) as Hdm.
  - change (10 ^ Z.of_nat 1) with 10 in Hn.
    assert (Hq : n / 10 = 0) by (apply Z.div_small; lia).
    cbn [digits_onto]. rewrite Hq, Z.eqb_refl.
    rewrite int_digits_digit by (apply is_digit_digit_char; lia).
    rewrite digit_val_digit_char by lia. f_equal. lia.
  - change (digits_onto (S (S fuel)) n rest)
      with (if n / 10 =? 0 then String (digit_char (n mod 10)) rest
            else digits_onto (S fuel) (n / 10) (String (digit_char (n mod 10)) rest)).
    destruct (n / 10 =? 0) eqn:Hq.
    + apply Z.eqb_eq in Hq.
      rewrite int_digits_digit by (apply is_digit_digit_char; lia).
      rewrite digit_val_digit_char by lia. f_equal. lia.
    + rewrite IH.
      * rewrite int_digits_digit by (apply is_digit_digit_char; lia).
        rewrite digit_val_digit_char by lia. f_equal. lia.
      * split; [apply Z.div_pos; lia|].
        apply Z.div_lt_upper_bound; [lia|].
        replace (Z.of_nat (S (S fuel))) with (Z.succ (Z.of_nat (S fuel))) in Hn by lia.
        rewrite Z.pow_succ_r in Hn by lia. lia.
Qed.

Lemma fuel_suffices (n : Z) :
  0 <= n -> n < 10 ^ Z.of_nat (S (Z.to_nat (Z.log2 n))).
Proof.
  intros Hn.
  replace (Z.of_nat (S (Z.to_nat (Z.log2 n)))) with (Z.succ (Z.log2 n))
    by (pose proof (Z.log2_nonneg n); lia).
  destruct (Z.eq_dec n 0) as [->|Hnz]; [reflexivity|].
  pose proof (Z.log2_spec n ltac:(lia)) as [_ Hlt].
  eapply Z.lt_le_trans; [exact Hlt|].
  apply Z.pow_le_mono_l. pose proof (Z.log2_nonneg n). lia.
Qed.

Lemma digits_chars (n : Z) : 0 <= n -> all_chars is_digit (digits n) = true.
Proof. intros Hn. apply digits_onto_chars; auto. Qed.

Lemma int_digits_digits (n : Z) (b : bool) :
  0 <= n -> int_digits 0 b (digits n) = Some n.
Proof.
  intros Hn. unfold digits. rewrite int_digits_onto; [reflexivity|].
  split; [assumption | now apply fuel_suffices].
Qed.

Lemma str_chars (n : Z) : all_chars numeral_char (str n) = true.
Proof.
  unfold str. destruct (n <? 0) eqn:E.
  - simpl. apply (all_chars_impl is_digit); [apply digit_numeral_char|].
    apply digits_chars. lia.
  - apply (all_chars_impl is_digit); [apply digit_numeral_char|].
    apply digits_chars. lia.
Qed.

Lemma str_nonempty (n : Z) : is_empty (str n) = false.
Proof.
  unfold str, digits. destruct (n <? 0); [reflexivity|].
  apply digits_onto_nonempty.
Qed.

(** [int(str(n)) == n] *)
Lemma int_str (n : Z) : int (str n) = Ok n.
Proof.
  unfold int.
  rewrite c_strip_not_space
    by (apply (all_chars_impl numeral_char);
        [apply numeral_char_not_space | apply str_chars]).
  unfold str. destruct (n <? 0) eqn:E.
  - change (Ascii.eqb "-" "-") with true. cbv iota beta.
    rewrite int_digits_digits by lia. f_equal. lia.
  - assert (Hn : 0 <= n) by lia.
    pose proof (digits_chars n Hn) as Hc.
    pose proof (int_digits_digits n false Hn) as Hv.
    unfold digits in *. pose proof (digits_onto_nonempty (Z.to_nat (Z.log2 n)) n "") as Hne.
    destruct (digits_onto (S (Z.to_nat (Z.log2 n))) n "") as [|c r] eqn:Hd;
      [discriminate|].
    simpl in Hc. apply andb_true_iff in Hc as [Hc _].
    rewrite (digit_not_char c "-" Hc eq_refl), (digit_not_char c "+" Hc eq_refl).
    now rewrite Hv.
Qed.

End Numerals.

(* ================================================================= *)
(** ** [strptime] against the grammar of a time of day *)

Section TimeParsing.

Lemma int_one_digit (c : ascii) :
  is_digit c = true -> int (String c "") = Ok (digit_val c).
Proof.
  intros Hc. unfold int.
  rewrite c_strip_not_space
    by (simpl; unfold not_space; now rewrite (digit_not_space _ Hc)).
  rewrite (digit_not_char c "-" Hc eq_refl), (digit_not_char c "+" Hc eq_refl).
  rewrite int_digits_digit by assumption. cbn [int_digits]. f_equal; lia.
Qed.

Lemma int_two_digits (c1 c2 : ascii) :
  is_digit c1 = true -> is_digit c2 = true ->
  int (String c1 (String c2 "")) = Ok (two_digit_value c1 c2).
Proof.
  intros H1 H2. unfold int.
  rewrite c_strip_not_space
    by (simpl; unfold not_space;
        now rewrite (digit_not_space _ H1), (digit_not_space _ H2)).
  rewrite (digit_not_char c1 "-" H1 eq_refl), (digit_not_char c1 "+" H1 eq_refl).
  rewrite !int_digits_digit by assumption. cbn [int_digits].
  unfold two_digit_value. f_equal; lia.
Qed.

Lemma int_raises_ValueError (s : string) (e : exn) :
  int s = Raise e -> e = ValueError.
Proof.
  unfold int.
  destruct (match c_rstrip (c_lstrip s) with
            | EmptyString => (false, c_rstrip (c_lstrip s))
            | String c r =>
                if Ascii.eqb c "-" then (true, r)
                else if Ascii.eqb c "+" then (false, r)
                else (false, c_rstrip (c_lstrip s))
            end) as [neg body].
  destruct (int_digits 0 false body); congruence.
Qed.

(** The shapes of a field. *)
Lemma field_value_inv (bound : Z) (a : string) (v : Z) :
  field_value bound a = Some v ->
  (exists c, a = String c "" /\ is_digit c = true /\ v = digit_val c)
  \/ (exists c1 c2, a = String c1 (String c2 "")
        /\ is_digit c1 = true /\ is_digit c2 = true
        /\ two_digit_value c1 c2 < bound /\ v = two_digit_value c1 c2).
Proof.
  destruct a as [|c1 [|c2 [|c3 r]]]; simpl; try discriminate.
  - destruct (is_digit c1) eqn:H1; [|discriminate].
    intros [= <-]. left. eauto.
  - destruct (is_digit c1) eqn:H1; [|discriminate].
    destruct (is_digit c2) eqn:H2; [|discriminate].
    destruct (two_digit_value c1 c2 <? bound) eqn:Hb; [|discriminate].
    intros [= <-]. right. exists c1, c2. repeat split; auto. lia.
Qed.

Lemma field_value_int (bound : Z) (a : string) (v : Z) :
  field_value bound a = Some v -> int a = Ok v.
Proof.
  intros H. apply field_value_inv in H
    as [(c & -> & Hc & ->) | (c1 & c2 & -> & H1 & H2 & _ & ->)].
  - now apply int_one_digit.
  - now apply int_two_digits.
Qed.

Lemma field_value_digits (bound : Z) (a : string) (v : Z) :
  field_value bound a = Some v -> all_chars is_digit a = true.
Proof.
  intros H. apply field_value_inv in H
    as [(c & -> & Hc & ->) | (c1 & c2 & -> & H1 & H2 & _ & ->)]; simpl.
  - now rewrite Hc.
  - now rewrite H1, H2.
Qed.

Lemma field_value_range (bound : Z) (a : string) (v : Z) :
  10 <= bound -> field_value bound a = Some v -> 0 <= v < bound.
Proof.
  intros Hb H. apply field_value_inv in H
    as [(c & -> & Hc & ->) | (c1 & c2 & -> & H1 & H2 & Hlt & ->)].
  - pose proof (digit_val_range _ Hc). lia.
  - pose proof (digit_val_range _ H1). pose proof (digit_val_range _ H2).
    unfold two_digit_value in *. lia.
Qed.

Lemma cut_at_colon_digits (a b : string) :
  all_chars is_digit a = true ->
  cut_at_colon (a ++ String ":" b) = Some (a, b).
Proof.
  induction a as [|c a IH]; simpl; [reflexivity|].
  intros H. apply andb_true_iff in H as [Hc Ha].
  rewrite (digit_not_char c ":" Hc eq_refl), (IH Ha). reflexivity.
Qed.

Lemma cut_at_colon_app (s a b : string) :
  cut_at_colon s = Some (a, b) -> s = a ++ String ":" b.
Proof.
  revert a. induction s as [|c s IH]; simpl; intros a; [discriminate|].
  destruct (Ascii.eqb c ":") eqn:E.
  - apply Ascii.eqb_eq in E. subst c. now intros [= <- <-].
  - destruct (cut_at_colon s) as [[a' b']|]; [|discriminate].
    intros [= <- <-]. simpl. f_equal. now apply IH.
Qed.

(** Group [M] prefers the whole of a minute field. *)
Lemma re_M_field (b : string) (m : Z) :
  field_value 60 b = Some m -> exists tl, re_M b = (b, "") :: tl.
Proof.
  intros H. apply field_value_inv in H
    as [(c & -> & Hc & ->) | (c1 & c2 & -> & H1 & H2 & Hlt & ->)].
  - simpl. rewrite Hc. eauto.
  - pose proof (digit_val_range _ H1). pose proof (digit_val_range _ H2).
    unfold two_digit_value, digit_val in *.
    cbn [re_M]. rewrite H2.
    replace (48 <=? code c1) with true by lia.
    replace (code c1 <=? 53) with true by lia.
    simpl. eauto.
Qed.

(** Group [H] prefers the whole of an hour field that a colon follows. *)
Lemma re_H_field (a r : string) (h : Z) :
  field_value 24 a = Some h ->
  exists tl, re_H (a ++ String ":" r) = (a, String ":" r) :: tl.
Proof.
  intros H. apply field_value_inv in H
    as [(c & -> & Hc & ->) | (c1 & c2 & -> & H1 & H2 & Hlt & ->)].
  - cbn [append re_H]. rewrite Hc.
    change (code ":") with 58. change (is_digit ":") with false.
    replace (58 <=? 51) with false by reflexivity.
    rewrite !andb_false_r. simpl. eauto.
  - pose proof (digit_val_range _ H1). pose proof (digit_val_range _ H2).
    unfold two_digit_value, digit_val in *.
    cbn [append re_H]. rewrite H1, H2, !eqb_code.
    change (code "2") with 50. change (code "0") with 48.
    change (code "1") with 49.
    destruct (code c1 =? 50) eqn:E2.
    + replace (48 <=? code c2) with true by lia.
      replace (code c2 <=? 51) with true by lia. simpl. eauto.
    + replace ((code c1 =? 48) || (code c1 =? 49)) with true by lia.
      simpl. eauto.
Qed.

Lemma re_M_inv (r b rest : string) (tl : list (string * string)) :
  re_M r = (b, rest) :: tl ->
  r = b ++ rest /\ exists m, field_value 60 b = Some m.
Proof.
  destruct r as [|c1 r1]; [discriminate|].
  cbn [re_M]. destruct r1 as [|c2 r2].
  - simpl. destruct (is_digit c1) eqn:H1; [|discriminate].
    intros [= <- <- _]. simpl. rewrite H1. eauto.
  - destruct ((48 <=? code c1) && (code c1 <=? 53) && is_digit c2) eqn:E.
    + intros [= <- <- _]. split; [reflexivity|].
      apply andb_true_iff in E as [E H2].
      assert (H1 : is_digit c1 = true) by (apply is_digit_range; lia).
      pose proof (digit_val_range _ H2).
      simpl. rewrite H1, H2.
      replace (two_digit_value c1 c2 <? 60) with true
        by (unfold two_digit_value, digit_val in *; lia).
      simpl. eauto.
    + simpl. destruct (is_digit c1) eqn:H1; [|discriminate].
      intros [= <- <- _]. simpl. rewrite H1. eauto.
Qed.

Lemma re_H_inv (s a r : string) :
  In (a, r) (re_H s) -> s = a ++ r /\ exists h, field_value 24 a = Some h.
Proof.
  destruct s as [|c1 r1]; [contradiction|].
  cbn [re_H]. intros Hin. apply in_app_or in Hin as [Hin|Hin].
  - destruct r1 as [|c2 r2]; [contradiction|].
    apply in_app_or in Hin as [Hin|Hin].
    + destruct (Ascii.eqb c1 "2" && (48 <=? code c2) && (code c2 <=? 51)) eqn:E;
        [|contradiction].
      destruct Hin as [[= <- <-]|[]]. split; [reflexivity|].
      rewrite eqb_code in E. change (code "2") with 50 in E.
      assert (H1 : is_digit c1 = true) by (apply is_digit_range; lia).
      assert (H2 : is_digit c2 = true) by (apply is_digit_range; lia).
      simpl. rewrite H1, H2.
      replace (two_digit_value c1 c2 <? 24) with true
        by (unfold two_digit_value, digit_val; lia).
      simpl. eauto.
    + destruct ((Ascii.eqb c1 "0" || Ascii.eqb c1 "1") && is_digit c2) eqn:E;
        [|contradiction].
      destruct Hin as [[= <- <-]|[]]. split; [reflexivity|].
      rewrite !eqb_code in E. change (code "0") with 48 in E.
      change (code "1") with 49 in E.
      apply andb_true_iff in E as [E H2].
      assert (H1 : is_digit c1 = true) by (apply is_digit_range; lia).
      pose proof (digit_val_range _ H2).
      simpl. rewrite H1, H2.
      replace (two_digit_value c1 c2 <? 24) with true
        by (unfold two_digit_value, digit_val in *; lia).
      simpl. eauto.
  - destruct (is_digit c1) eqn:H1; [|contradiction].
    destruct Hin as [[= <- <-]|[]]. split; [reflexivity|].
    simpl. rewrite H1. eauto.
Qed.

Lemma re_match_inv (hs : list (string * string)) (a b rest : string) :
  re_match hs = Some (a, b, rest) ->
  exists r tl, In (a, String ":" r) hs /\ re_M r = (b, rest) :: tl.
Proof.
  induction hs as [|[h r] hs IH]; simpl; [discriminate|].
  assert (Hlater : re_match hs = Some (a, b, rest) ->
                   exists r0 tl, ((h, r) = (a, String ":" r0) \/ In (a, String ":" r0) hs)
                                 /\ re_M r0 = (b, rest) :: tl).
  { intros H. destruct (IH H) as (r0 & tl & Hin & Hm). eauto. }
  destruct r as [|c r']; [exact Hlater|].
  destruct (Ascii.eqb c ":") eqn:E; [|exact Hlater].
  apply Ascii.eqb_eq in E. subst c.
  destruct (re_M r') as [|[m rest'] tl] eqn:Hm; [exact Hlater|].
  intros [= <- <- <-]. exists r', tl. auto.
Qed.

(** A text the grammar admits is parsed to the time it denotes. *)
Lemma strptime_HM_complete (s : string) (h m : Z) :
  time_of_text s = Some (h, m) -> strptime_HM s = Ok (datetime_of_time h m).
Proof.
  unfold time_of_text. destruct (cut_at_colon s) as [[a b]|] eqn:Hcut;
    [|discriminate].
  destruct (field_value 24 a) as [h'|] eqn:Ha; [|discriminate].
  destruct (field_value 60 b) as [m'|] eqn:Hb; [|discriminate].
  intros [= <- <-]. apply cut_at_colon_app in Hcut. subst s.
  destruct (re_H_field a b h' Ha) as [tlH HH].
  destruct (re_M_field b m' Hb) as [tlM HM].
  unfold strptime_HM. rewrite HH. cbn [re_match].
  change (Ascii.eqb ":" ":") with true. cbv iota. rewrite HM.
  now rewrite (field_value_int _ _ _ Ha), (field_value_int _ _ _ Hb).
Qed.

(** A text that is parsed is one the grammar admits. *)
Lemma strptime_HM_sound (s : string) (t : datetime) :
  strptime_HM s = Ok t ->
  exists h m, time_of_text s = Some (h, m) /\ t = datetime_of_time h m.
Proof.
  unfold strptime_HM.
  destruct (re_match (re_H s)) as [[[a b] rest]|] eqn:Hre; [|discriminate].
  destruct rest as [|c rest]; [|discriminate].
  apply re_match_inv in Hre as (r & tl & Hin & HM).
  apply re_H_inv in Hin as [Hs [h Ha]].
  apply re_M_inv in HM as [Hr [m Hb]].
  rewrite (field_value_int _ _ _ Ha), (field_value_int _ _ _ Hb). simpl.
  intros [= <-]. exists h, m. split; [|reflexivity].
  unfold time_of_text. subst s r. rewrite append_nil_r.
  rewrite cut_at_colon_digits by (eapply field_value_digits; eauto).
  now rewrite Ha, Hb.
Qed.

End TimeParsing.

(* ================================================================= *)
(** ** The store: insert, delete, select *)

Section Store.

Lemma executemany_insert_rows (entries : list StudyEntry) : forall db,
  executemany_insert (map entry_params entries) db
  = mkDatabase (study_logs db ++ new_rows (sqlite_sequence db) entries)
               (sqlite_sequence db + Z.of_nat (List.length entries)).
Proof.
  induction entries as [|e entries IH]; intros db.
  - simpl. rewrite app_nil_r, Z.add_0_r. now destruct db.
  - cbn [map executemany_insert]. rewrite IH. destruct e as [d s e c m].
    cbn [entry_params sql_insert study_logs sqlite_sequence new_rows
         date_iso start_time end_time category duration_minutes List.length].
    rewrite <- app_assoc. f_equal. lia.
Qed.

Lemma entry_of_new_rows (entries : list StudyEntry) : forall k,
  map entry_of_row (new_rows k entries) = entries.
Proof.
  induction entries as [|e entries IH]; intros k; simpl; [reflexivity|].
  rewrite IH. now destruct e.
Qed.

Lemma new_rows_dated (d : string) (entries : list StudyEntry) : forall k,
  Forall (fun e => date_iso e = d) entries ->
  filter (fun r => String.eqb (study_date r) d) (new_rows k entries)
  = new_rows k entries.
Proof.
  induction entries as [|e entries IH]; intros k H; simpl; [reflexivity|].
  inversion H as [|? ? He Hes]; subst. rewrite String.eqb_refl.
  now rewrite IH.
Qed.

Lemma filter_deleted (d : string) (rows : list log_row) :
  filter (fun r => String.eqb (study_date r) d)
         (filter (fun r => negb (String.eqb (study_date r) d)) rows) = [].
Proof.
  induction rows as [|r rows IH]; simpl; [reflexivity|].
  destruct (String.eqb (study_date r) d) eqn:E; simpl; [assumption|].
  now rewrite E.
Qed.

Lemma filter_other_date (d d' : string) (rows : list log_row) :
  d' <> d ->
  filter (fun r => String.eqb (study_date r) d')
         (filter (fun r => negb (String.eqb (study_date r) d)) rows)
  = filter (fun r => String.eqb (study_date r) d') rows.
Proof.
  intros Hd. induction rows as [|r rows IH]; simpl; [reflexivity|].
  destruct (String.eqb (study_date r) d) eqn:E; simpl.
  - apply String.eqb_eq in E.
    destruct (String.eqb (study_date r) d') eqn:E'; [|assumption].
    apply String.eqb_eq in E'. congruence.
  - now rewrite IH.
Qed.

Lemma order_insert_perm (r : log_row) (rows : list log_row) :
  Permutation (order_insert r rows) (r :: rows).
Proof.
  induction rows as [|r' rows IH]; simpl; [reflexivity|].
  destruct (String.leb (row_start_time r) (row_start_time r')); [reflexivity|].
  rewrite IH. apply perm_swap.
Qed.

Lemma order_by_start_time_perm (rows : list log_row) :
  Permutation (order_by_start_time rows) rows.
Proof.
  induction rows as [|r rows IH]; simpl; [reflexivity|].
  rewrite order_insert_perm. now constructor.
Qed.

Lemma ascending_cons {A : Type} (le : A -> A -> bool) (a : A) (l : list A) :
  ascending le (a :: l) = true -> ascending le l = true.
Proof.
  destruct l as [|b l]; [reflexivity|].
  cbn [ascending]. intros H. now apply andb_true_iff in H as [_ H].
Qed.

Lemma order_insert_ascending (r : log_row) (rows : list log_row) :
  ascending row_leb rows = true ->
  ascending row_leb (order_insert r rows) = true.
Proof.
  induction rows as [|r' rows IH]; intros Hs; [reflexivity|].
  cbn [order_insert].
  destruct (String.leb (row_start_time r) (row_start_time r')) eqn:E.
  - change (row_leb r r' && ascending row_leb (r' :: rows) = true).
    unfold row_leb at 1. now rewrite E, Hs.
  - assert (Hr : row_leb r' r = true).
    { unfold row_leb.
      destruct (String.leb_total (row_start_time r) (row_start_time r')); congruence. }
    pose proof (IH (ascending_cons _ _ _ Hs)) as IH'.
    destruct rows as [|r'' rows].
    + cbn [order_insert ascending]. now rewrite Hr.
    + cbn [order_insert] in *.
      destruct (String.leb (row_start_time r) (row_start_time r'')).
      * change (row_leb r' r && ascending row_leb (r :: r'' :: rows) = true).
        now rewrite Hr, IH'.
      * change (row_leb r' r'' && ascending row_leb (r'' :: order_insert r rows) = true).
        change (row_leb r' r'' && ascending row_leb (r'' :: rows) = true) in Hs.
        apply andb_true_iff in Hs as [-> _]. now rewrite IH'.
Qed.

Lemma order_by_start_time_ascending (rows : list log_row) :
  ascending row_leb (order_by_start_time rows) = true.
Proof.
  induction rows as [|r rows IH]; [reflexivity|].
  now apply order_insert_ascending.
Qed.

Lemma ascending_map_entry (rows : list log_row) :
  ascending start_text_leb (map entry_of_row rows) = ascending row_leb rows.
Proof.
  induction rows as [|r rows IH]; [reflexivity|].
  destruct rows as [|r' rows]; [reflexivity|].
  change (start_text_leb (entry_of_row r) (entry_of_row r')
          && ascending start_text_leb (map entry_of_row (r' :: rows))
          = row_leb r r' && ascending row_leb (r' :: rows)).
  now rewrite IH.
Qed.

Lemma fetch_entries_rows (d : string) (dk : disk) :
  fetch_entries d dk
  = map entry_of_row
      (order_by_start_time
         (filter (fun r => String.eqb (study_date r) d)
                 (study_logs (committed dk)))).
Proof.
  unfold fetch_entries, sql_select. rewrite map_map. reflexivity.
Qed.

(** What a fetch of day [d] reads after the day was replaced. *)
Lemma fetch_after_replace (d : string) (entries : list StudyEntry) (dk : disk) :
  Forall (fun e => date_iso e = d) entries ->
  fetch_entries d (replace_day d entries dk)
  = map entry_of_row
      (order_by_start_time
         (new_rows (sqlite_sequence (committed dk)) entries)).
Proof.
  intros Hd. rewrite fetch_entries_rows. do 2 f_equal.
  unfold replace_day, insert_entries, delete_entries_for_date.
  destruct entries as [|e entries].
  - cbn [map commit committed sql_delete study_logs new_rows].
    apply filter_deleted.
  - set (es := e :: entries) in *.
    change (map entry_params es) with (entry_params e :: map entry_params entries)
      at 1.
    cbv iota. cbn [commit committed]. rewrite executemany_insert_rows.
    cbn [study_logs sql_delete sqlite_sequence].
    rewrite filter_app, filter_deleted, new_rows_dated by assumption.
    reflexivity.
Qed.

End Store.

(* ================================================================= *)
(** ** Duration texts: formatting and parsing back *)

Section DurationText.

Lemma replace_app (old : ascii) (new s t : string) :
  replace old new (s ++ t) = replace old new s ++ replace old new t.
Proof.
  induction s as [|c s IH]; simpl; [reflexivity|].
  destruct (Ascii.eqb c old); rewrite IH; [now rewrite append_assoc | reflexivity].
Qed.

Lemma replace_numeral (old : ascii) (new s : string) :
  numeral_char old = false ->
  all_chars numeral_char s = true -> replace old new s = s.
Proof.
  intros Hold. induction s as [|c s IH]; simpl; [reflexivity|].
  intros H. apply andb_true_iff in H as [Hc Hs].
  destruct (Ascii.eqb c old) eqn:E.
  - apply Ascii.eqb_eq in E. congruence.
  - now rewrite IH.
Qed.

Lemma is_empty_app (s t : string) :
  is_empty (s ++ t) = is_empty s && is_empty t.
Proof. now destruct s. Qed.

Lemma split_from_word (s : string) : forall cur t,
  all_chars not_space s = true ->
  split_from cur (s ++ t) = split_from (cur ++ s) t.
Proof.
  induction s as [|c s IH]; intros cur t H; simpl.
  - now rewrite append_nil_r.
  - apply andb_true_iff in H as [Hc Hs].
    unfold not_space in Hc. apply negb_true_iff in Hc. rewrite Hc.
    rewrite IH by assumption. rewrite append_assoc. reflexivity.
Qed.

Lemma str_not_space (n : Z) : all_chars not_space (str n) = true.
Proof.
  apply (all_chars_impl numeral_char);
    [apply numeral_char_not_space | apply str_chars].
Qed.

(** A text that starts with a numeral is not the placeholder. *)
Lemma numeral_not_placeholder (n : Z) (t : string) :
  String.eqb (str n ++ t) placeholder || is_empty (str n ++ t) = false.
Proof.
  pose proof (str_chars n) as Hc. pose proof (str_nonempty n) as Hne.
  destruct (str n) as [|c r]; [discriminate|].
  simpl in Hc. apply andb_true_iff in Hc as [Hc _].
  cbn [append is_empty]. rewrite orb_false_r.
  apply String.eqb_neq. intros H. injection H as H _. subst c.
  discriminate Hc.
Qed.

(** [_parse_duration_text(_format_minutes(m)) == m] *)
Lemma parse_format (m : Z) : _parse_duration_text (_format_minutes m) = Ok m.
Proof.
  unfold _format_minutes.
  pose proof (Z.div_mod m 60 ltac:(lia)) as Hdm.
  set (H := m / 60) in *. set (M := m mod 60) in *.
  destruct (H =? 0) eqn:EH; cbn [negb]; unfold _parse_duration_text;
    rewrite numeral_not_placeholder.
  - rewrite !replace_app.
    rewrite !(replace_numeral _ _ (str M)) by (reflexivity || apply str_chars).
    change (replace "m" "" (replace "h" "" "m")) with "".
    unfold split. rewrite split_from_word by apply str_not_space.
    cbn [append split_from].
    rewrite str_nonempty. cbn [bind].
    change (int "0") with (Ok (A:=Z) 0). cbn [bind].
    rewrite int_str. cbn [bind]. apply Z.eqb_eq in EH. f_equal. lia.
  - rewrite !replace_app.
    rewrite !(replace_numeral _ _ (str M)), !(replace_numeral _ _ (str H))
      by (reflexivity || apply str_chars).
    change (replace "m" "" (replace "h" "" "h ")) with " ".
    change (replace "m" "" (replace "h" "" "m")) with "".
    unfold split. rewrite split_from_word by apply str_not_space.
    cbn [append split_from]. change (is_space " ") with true. cbv iota.
    rewrite str_nonempty.
    rewrite split_from_word by apply str_not_space.
    cbn [append split_from]. rewrite str_nonempty. cbn [bind].
    rewrite !int_str. cbn [bind]. f_equal. lia.
Qed.

End DurationText.

(* ================================================================= *)
(** ** [minutes_between] in terms of the times the texts denote *)

Section Minutes.

Lemma strptime_HM_raises (s : string) (e : exn) :
  strptime_HM s = Raise e -> e = ValueError.
Proof.
  unfold strptime_HM.
  destruct (re_match (re_H s)) as [[[a b] rest]|]; [|congruence].
  destruct rest; [|congruence].
  destruct (int a) eqn:Ea; simpl.
  - destruct (int b) eqn:Eb; simpl; [discriminate|].
    intros [= <-]. eapply int_raises_ValueError; eauto.
  - intros [= <-]. eapply int_raises_ValueError; eauto.
Qed.

Lemma strptime_HM_spec (s : string) :
  strptime_HM s
  = match time_of_text s with
    | Some (h, m) => Ok (datetime_of_time h m)
    | None => Raise ValueError
    end.
Proof.
  destruct (time_of_text s) as [[h m]|] eqn:Ht.
  - now apply strptime_HM_complete.
  - destruct (strptime_HM s) as [t|e] eqn:Hp.
    + apply strptime_HM_sound in Hp as (h & m & Hs & _). congruence.
    + now rewrite (strptime_HM_raises _ _ Hp).
Qed.

Lemma datetime_minutes (h m : Z) :
  datetime_of_time h m = 60 * minute_of_day (h, m).
Proof. unfold datetime_of_time, minute_of_day. cbn [fst snd]. lia. Qed.

(** The duration between two texts: defined when both denote a time of
    day, and then the distance from the first to the second, the second
    taken on the next day when it is the earlier one. *)
Lemma minutes_between_spec (s e : string) :
  minutes_between s e
  = match time_of_text s, time_of_text e with
    | Some ts, Some te =>
        Ok (if minute_of_day te <? minute_of_day ts
            then minute_of_day te - minute_of_day ts + 1440
            else minute_of_day te - minute_of_day ts)
    | _, _ => Raise ValueError
    end.
Proof.
  unfold minutes_between. rewrite !strptime_HM_spec.
  destruct (time_of_text s) as [[sh sm]|]; [|reflexivity].
  destruct (time_of_text e) as [[eh em]|]; [|reflexivity].
  cbn [bind]. f_equal.
  rewrite !datetime_minutes. unfold total_seconds, timedelta_days.
  set (a := minute_of_day (sh, sm)). set (b := minute_of_day (eh, em)).
  destruct (b <? a) eqn:E.
  - replace (60 * b <? 60 * a) with true by lia.
    replace (60 * b + 1 * 86400 - 60 * a) with ((b - a + 1440) * 60) by lia.
    now rewrite Z.div_mul by lia.
  - replace (60 * b <? 60 * a) with false by lia.
    replace (60 * b - 60 * a) with ((b - a) * 60) by lia.
    now rewrite Z.div_mul by lia.
Qed.

Lemma minutes_between_raises (s e : string) (x : exn) :
  minutes_between s e = Raise x -> x = ValueError.
Proof.
  rewrite minutes_between_spec.
  destruct (time_of_text s), (time_of_text e); congruence.
Qed.

Lemma time_of_text_range (s : string) (t : Z * Z) :
  time_of_text s = Some t -> 0 <= minute_of_day t < 1440.
Proof.
  unfold time_of_text. destruct (cut_at_colon s) as [[a b]|]; [|discriminate].
  destruct (field_value 24 a) as [h|] eqn:Ha; [|discriminate].
  destruct (field_value 60 b) as [m|] eqn:Hb; [|discriminate].
  intros [= <-]. apply field_value_range in Ha; [|lia].
  apply field_value_range in Hb; [|lia].
  unfold minute_of_day. simpl. lia.
Qed.

(** A duration is a number of minutes of one day. *)
Lemma minutes_between_range (s e : string) (d : Z) :
  minutes_between s e = Ok d -> 0 <= d < 1440.
Proof.
  rewrite minutes_between_spec.
  destruct (time_of_text s) as [ts|] eqn:Hs; [|discriminate].
  destruct (time_of_text e) as [te|] eqn:He; [|discriminate].
  apply time_of_text_range in Hs, He.
  destruct (minute_of_day te <? minute_of_day ts) eqn:E; intros [= <-]; lia.
Qed.

(** The form [HH:MM] is one of the forms the grammar admits. *)
Lemma HH_MM_time_of_text (s : string) :
  is_HH_MM s = true ->
  exists c1 c2 c3 c4,
    s = String c1 (String c2 (String ":" (String c3 (String c4 ""))))
    /\ is_digit c1 = true /\ is_digit c2 = true
    /\ is_digit c3 = true /\ is_digit c4 = true
    /\ two_digit_value c1 c2 < 24 /\ two_digit_value c3 c4 < 60
    /\ time_of_text s = Some (two_digit_value c1 c2, two_digit_value c3 c4).
Proof.
  destruct s as [|c1 [|c2 [|c [|c3 [|c4 [|c5 r]]]]]]; try discriminate.
  cbn [is_HH_MM].
  destruct (is_digit c1) eqn:H1; [|discriminate].
  destruct (is_digit c2) eqn:H2; [|discriminate].
  destruct (Ascii.eqb c ":") eqn:Hc; [|discriminate].
  destruct (is_digit c3) eqn:H3; [|discriminate].
  destruct (is_digit c4) eqn:H4; [|discriminate].
  destruct (two_digit_value c1 c2 <? 24) eqn:Hh; [|discriminate].
  destruct (two_digit_value c3 c4 <? 60) eqn:Hm; [|discriminate].
  intros _. apply Ascii.eqb_eq in Hc. subst c.
  exists c1, c2, c3, c4. split; [reflexivity|].
  do 4 (split; [assumption|]). do 2 (split; [lia|]).
  unfold time_of_text.
  pose proof (cut_at_colon_digits (String c1 (String c2 ""))
                (String c3 (String c4 ""))) as Hcut.
  cbn [append all_chars] in Hcut. rewrite H1, H2 in Hcut.
  rewrite (Hcut eq_refl).
  cbn [field_value]. now rewrite H1, H2, H3, H4, Hh, Hm.
Qed.

Lemma ascii_compare_code (a b : ascii) : Ascii.compare a b = (code a ?= code b).
Proof. unfold Ascii.compare, code. now rewrite N2Z.inj_compare. Qed.

(** On texts of the form [HH:MM] the order of the bytes is the order of
    the times. *)
Lemma HH_MM_leb_chrono (a b : string) :
  is_HH_MM a = true -> is_HH_MM b = true -> String.leb a b = true ->
  exists ta tb, time_of_text a = Some ta /\ time_of_text b = Some tb
                /\ minute_of_day ta <= minute_of_day tb.
Proof.
  intros Ha Hb.
  apply HH_MM_time_of_text in Ha
    as (a1 & a2 & a3 & a4 & -> & A1 & A2 & A3 & A4 & Ah & Am & Hta).
  apply HH_MM_time_of_text in Hb
    as (b1 & b2 & b3 & b4 & -> & B1 & B2 & B3 & B4 & Bh & Bm & Htb).
  rewrite Hta, Htb. intros Hle. do 2 eexists. do 2 (split; [reflexivity|]).
  apply digit_val_range in A1, A2, A3, A4, B1, B2, B3, B4.
  unfold minute_of_day, two_digit_value, digit_val in *. cbn [fst snd].
  unfold String.leb in Hle. cbn [String.compare] in Hle.
  rewrite !ascii_compare_code in Hle.
  destruct (Z.compare_spec (code a1) (code b1)); [|lia|discriminate].
  destruct (Z.compare_spec (code a2) (code b2)); [|lia|discriminate].
  rewrite Z.compare_refl in Hle.
  destruct (Z.compare_spec (code a3) (code b3)); [|lia|discriminate].
  destruct (Z.compare_spec (code a4) (code b4)); [|lia|discriminate].
  lia.
Qed.

End Minutes.

(* ================================================================= *)
(** ** The form: running total, collecting and saving *)

Section Form.

Lemma total_of_rows_shows (rows : list table_row) (ds : list Z) :
  Forall2 shows rows ds ->
  forall total, total_of_rows rows total = Ok (total + sum ds).
Proof.
  induction 1 as [|r d rows ds Hr _ IH]; intros total; cbn [total_of_rows sum fold_right].
  - f_equal; lia.
  - fold (sum ds).
    destruct Hr as [E|E|E|m E]; rewrite E.
    + rewrite IH. f_equal; lia.
    + change (_parse_duration_text "") with (Ok (A:=Z) 0). cbn [bind].
      rewrite IH. f_equal; lia.
    + change (_parse_duration_text placeholder) with (Ok (A:=Z) 0). cbn [bind].
      rewrite IH. f_equal; lia.
    + rewrite parse_format. cbn [bind]. rewrite IH. f_equal; lia.
Qed.

Lemma update_total_label_shows (w : window) (ds : list Z) :
  Forall2 shows (table w) ds ->
  update_total_label w
  = Ok (mkWindow (date_picker w) (table w) (total_text (sum ds))).
Proof.
  intros H. unfold update_total_label.
  rewrite (total_of_rows_shows _ _ H). cbn [bind]. reflexivity.
Qed.

(** [collect_entries] as a function of the rows. *)
Lemma collect_from_spec (d : string) (rows : list table_row) :
  forall k entries errors,
    collect_from d k rows entries errors
    = Ok ((entries ++ parsed_entries d rows)%list,
          (errors ++ map error_line (offending_rows_from k rows))%list).
Proof.
  induction rows as [|r rows IH]; intros k entries errors.
  - cbn. now rewrite !app_nil_r.
  - cbn [collect_from parsed_entries flat_map offending_rows_from].
    fold (parsed_entries d rows).
    unfold entry_of_table_row, fails_to_parse.
    destruct (start_item r) as [s|]; [|apply IH].
    destruct (end_item r) as [e|]; [|apply IH].
    destruct (category_widget r) as [c|]; [|apply IH].
    rewrite minutes_between_spec.
    destruct (time_of_text (strip s)) as [ts|].
    + destruct (time_of_text (strip e)) as [te|].
      * rewrite IH. fold (duration_between ts te).
        now rewrite <- app_assoc.
      * rewrite IH. cbn [map app]. now rewrite <- app_assoc.
    + rewrite IH. cbn [map app]. now rewrite <- app_assoc.
Qed.

Lemma collect_entries_spec (w : window) :
  collect_entries w
  = Ok (parsed_entries (date_picker w) (table w),
        map error_line (offending_rows (table w))).
Proof. unfold collect_entries. now rewrite collect_from_spec. Qed.

Lemma parsed_entries_dated (d : string) (rows : list table_row) :
  Forall (fun e => date_iso e = d) (parsed_entries d rows).
Proof.
  induction rows as [|r rows IH]; [constructor|].
  cbn [parsed_entries flat_map]. apply Forall_app. split; [|exact IH].
  unfold entry_of_table_row.
  destruct (start_item r), (end_item r), (category_widget r); try constructor.
  destruct (time_of_text _); [|constructor].
  destruct (time_of_text _); constructor; [reflexivity | constructor].
Qed.

(** A save that finds a row that fails to parse. *)
Lemma save_entries_invalid (w : window) (wd : world) :
  offending_rows (table w) <> [] ->
  save_entries w wd
  = (Ok tt,
     mkWorld (storage wd)
       (dialogs wd
        ++ [(Warning, "Validation errors",
             join newline (map error_line (offending_rows (table w))))])).
Proof.
  intros H. unfold save_entries. rewrite collect_entries_spec.
  destruct (offending_rows (table w)) as [|k ks]; [contradiction|].
  reflexivity.
Qed.

(** A save of rows that all parse, at least one of them. *)
Lemma save_entries_valid (w : window) (wd : world) :
  offending_rows (table w) = [] ->
  parsed_entries (date_picker w) (table w) <> [] ->
  save_entries w wd
  = (Ok tt,
     mkWorld (replace_day (date_picker w)
                (parsed_entries (date_picker w) (table w)) (storage wd))
       (dialogs wd ++ [(Information, "Saved", "Entries saved to database.")])).
Proof.
  intros He Hn. unfold save_entries. rewrite collect_entries_spec, He.
  cbn [map].
  destruct (parsed_entries (date_picker w) (table w)) as [|e es];
    [contradiction|].
  reflexivity.
Qed.

End Form.

(* ================================================================= *)
(** ** Rows of the table *)

Section Rows.

Lemma nth_error_set_row (rows : list table_row) : forall i r r0,
  nth_error rows i = Some r0 -> nth_error (set_row i r rows) i = Some r.
Proof.
  induction rows as [|r1 rows IH]; intros [|i] r r0 H; try discriminate.
  - reflexivity.
  - simpl in *. eapply IH; eauto.
Qed.

Lemma Forall_set_row (P : table_row -> Prop) (rows : list table_row) :
  forall i r, Forall P rows -> P r -> Forall P (set_row i r rows).
Proof.
  induction rows as [|r1 rows IH]; intros i r H Hr; [destruct i; constructor|].
  inversion H; subst. destruct i; simpl; constructor; auto.
Qed.

Lemma displayed_shows (rows : list table_row) :
  Forall displayed rows -> exists ds, Forall2 shows rows ds.
Proof.
  induction 1 as [|r rows [v Hv] _ [ds IH]].
  - exists []. constructor.
  - exists (v :: ds). now constructor.
Qed.

(** The numbers [offending_rows] lists are those of the rows that fail
    to parse. *)
Lemma offending_rows_from_iff (rows : list table_row) : forall k n,
  In n (offending_rows_from k rows)
  <-> exists i r, nth_error rows i = Some r /\ fails_to_parse r = true
                  /\ n = k + 1 + Z.of_nat i.
Proof.
  induction rows as [|r0 rows IH]; intros k n; cbn [offending_rows_from].
  - split; [contradiction|]. intros ([|i] & r & H & _); discriminate.
  - rewrite in_app_iff, IH. split.
    + intros [H|(i & r & Hn & Hf & ->)].
      * destruct (fails_to_parse r0) eqn:E; [|contradiction].
        destruct H as [<-|[]]. exists 0%nat, r0. repeat split; auto. lia.
      * exists (S i), r. repeat split; auto. lia.
    + intros ([|i] & r & Hn & Hf & ->); simpl in Hn.
      * injection Hn as ->. rewrite Hf. left. left. lia.
      * right. exists i, r. repeat split; auto. lia.
Qed.

Lemma fails_offending (rows : list table_row) (r : table_row) :
  In r rows -> fails_to_parse r = true -> offending_rows rows <> [].
Proof.
  intros Hin Hf. apply In_nth_error in Hin as [i Hi].
  assert (H : In (0 + 1 + Z.of_nat i) (offending_rows rows)).
  { apply offending_rows_from_iff. eauto. }
  intros E. rewrite E in H. contradiction.
Qed.

Lemma raises_at_save_fails (r : table_row) :
  raises_at_save r = fails_to_parse r.
Proof.
  unfold raises_at_save, fails_to_parse.
  destruct (start_item r) as [s|]; [|reflexivity].
  destruct (end_item r) as [e|]; [|reflexivity].
  destruct (category_widget r) as [c|]; [|reflexivity].
  rewrite minutes_between_spec.
  destruct (time_of_text (strip s)); [|reflexivity].
  destruct (time_of_text (strip e)); reflexivity.
Qed.

Lemma refused_rows_from_offending (rows : list table_row) : forall k,
  refused_rows_from k rows = offending_rows_from k rows.
Proof.
  induction rows as [|r rows IH]; intros k; [reflexivity|].
  cbn [refused_rows_from offending_rows_from].
  now rewrite raises_at_save_fails, IH.
Qed.

(** The numbers are listed once each, in ascending order. *)
Lemma refused_rows_from_sorted (rows : list table_row) : forall k,
  StronglySorted Z.lt (refused_rows_from k rows)
  /\ Forall (fun n => k < n) (refused_rows_from k rows).
Proof.
  induction rows as [|r rows IH]; intros k; [split; constructor|].
  destruct (IH (k + 1)) as [Hs Hk]. cbn [refused_rows_from].
  assert (Hk' : Forall (fun n => k < n) (refused_rows_from (k + 1) rows)).
  { eapply Forall_impl; [|exact Hk]. cbv beta. intros; lia. }
  destruct (raises_at_save r); cbn [app].
  - split; [constructor; assumption|]. constructor; [lia | exact Hk'].
  - split; assumption.
Qed.

Lemma refused_rows_from_iff (rows : list table_row) (k n : Z) :
  In n (refused_rows_from k rows)
  <-> exists i r, nth_error rows i = Some r /\ raises_at_save r = true
                  /\ n = k + 1 + Z.of_nat i.
Proof.
  rewrite refused_rows_from_offending, offending_rows_from_iff.
  split; intros (i & r & Hr & Hf & Hn); exists i, r;
    (split; [exact Hr|]); (split; [|exact Hn]);
    [rewrite raises_at_save_fails | rewrite <- raises_at_save_fails]; exact Hf.
Qed.

Lemma numeral_before_colon (a b t t' : string) :
  all_chars numeral_char a = true -> all_chars numeral_char b = true ->
  a ++ String ":" t = b ++ String ":" t' -> a = b.
Proof.
  revert b. induction a as [|x a IH]; intros [|y b] Ha Hb H; cbn [append] in H.
  - reflexivity.
  - injection H as Hx _. subst y. discriminate Hb.
  - injection H as Hx _. subst x. discriminate Ha.
  - injection H as -> H. cbn [all_chars] in Ha, Hb.
    apply andb_true_iff in Ha as [_ Ha]. apply andb_true_iff in Hb as [_ Hb].
    f_equal. now apply IH.
Qed.

(** Different row numbers have different error lines. *)
Lemma error_line_inj (m n : Z) : error_line m = error_line n -> m = n.
Proof.
  unfold error_line. intros H. cbn [append] in H.
  injection H as H.
  apply numeral_before_colon in H; [|apply str_chars..].
  pose proof (int_str m) as Hm. rewrite H, int_str in Hm. now injection Hm.
Qed.

Lemma HH_MM_strip (s : string) : is_HH_MM s = true -> strip s = s.
Proof.
  intros H. apply HH_MM_time_of_text in H
    as (c1 & c2 & c3 & c4 & -> & H1 & H2 & H3 & H4 & _).
  apply strip_not_space. cbn [all_chars]. unfold not_space.
  rewrite (digit_not_space c1), (digit_not_space c2), (digit_not_space c3),
    (digit_not_space c4) by assumption.
  reflexivity.
Qed.

Lemma ascending_impl {A : Type} (P : A -> Prop) (le1 le2 : A -> A -> bool)
    (l : list A) :
  (forall a b, P a -> P b -> le1 a b = true -> le2 a b = true) ->
  Forall P l -> ascending le1 l = true -> ascending le2 l = true.
Proof.
  intros Hle. induction l as [|a l IH]; intros HP Hs; [reflexivity|].
  destruct l as [|b l]; [reflexivity|].
  inversion HP as [|? ? Pa HP']; subst. inversion HP' as [|? ? Pb _]; subst.
  change (le1 a b && ascending le1 (b :: l) = true) in Hs.
  change (le2 a b && ascending le2 (b :: l) = true).
  apply andb_true_iff in Hs as [Hab Hs].
  now rewrite (Hle a b Pa Pb Hab), IH.
Qed.

End Rows.

(* ================================================================= *)
(** ** Day replace and save *)

Section DayReplace.

Lemma fetch_replace_perm (d : string) (entries : list StudyEntry) (dk : disk) :
  Forall (fun e => date_iso e = d) entries ->
  Permutation (fetch_entries d (replace_day d entries dk)) entries.
Proof.
  intros Hd. rewrite (fetch_after_replace _ _ _ Hd).
  rewrite order_by_start_time_perm. now rewrite entry_of_new_rows.
Qed.

Lemma fetch_replace_ascending (d : string) (entries : list StudyEntry)
    (dk : disk) :
  Forall (fun e => date_iso e = d) entries ->
  ascending start_text_leb (fetch_entries d (replace_day d entries dk)) = true.
Proof.
  intros Hd. rewrite (fetch_after_replace _ _ _ Hd).
  rewrite ascending_map_entry. apply order_by_start_time_ascending.
Qed.

Lemma select_deleted (d : string) (db : database) :
  sql_select d (sql_delete d db) = [].
Proof.
  unfold sql_select, sql_delete. cbn [study_logs].
  now rewrite filter_deleted.
Qed.

Lemma select_other_day (d d' : string) (db : database) :
  d' <> d -> sql_select d' (sql_delete d db) = sql_select d' db.
Proof.
  intros H. unfold sql_select, sql_delete. cbn [study_logs].
  now rewrite filter_other_date.
Qed.

(** The two commits of a day replace by at least one entry. *)
Lemma replace_day_history (d : string) (entries : list StudyEntry) (dk : disk) :
  entries <> [] ->
  history (replace_day d entries dk)
  = (history dk
     ++ [sql_delete d (committed dk); committed (replace_day d entries dk)])%list.
Proof.
  intros Hne. unfold replace_day, insert_entries, delete_entries_for_date.
  destruct entries as [|e entries]; [contradiction|].
  cbn [map commit history committed]. now rewrite <- app_assoc.
Qed.

Lemma duration_between_range (s e : string) (ts te : Z * Z) :
  time_of_text s = Some ts -> time_of_text e = Some te ->
  0 <= duration_between ts te < 1440.
Proof.
  intros Hs He. apply time_of_text_range in Hs, He.
  unfold duration_between.
  destruct (minute_of_day te <? minute_of_day ts) eqn:E; lia.
Qed.

Lemma update_duration_row (w : window) (row : nat) (r : table_row)
    (s e t0 : string) :
  nth_error (table w) row = Some r ->
  start_item r = Some s -> end_item r = Some e -> duration_item r = Some t0 ->
  Forall displayed (table w) ->
  exists w',
    _update_duration_for_row row w = Ok w'
    /\ nth_error (table w') row = Some (set_duration_text r (duration_text s e))
    /\ Forall displayed (table w').
Proof.
  intros Hr Hs He Ht Hall. unfold _update_duration_for_row.
  rewrite Hr, Hs, He, Ht, minutes_between_spec.
  assert (Hnew : displayed (set_duration_text r (duration_text s e))).
  { unfold duration_text.
    destruct (time_of_text (strip s)) as [ts|] eqn:Es;
      [destruct (time_of_text (strip e)) as [te|] eqn:Ee|].
    - exists (duration_between ts te). now apply shows_duration.
    - exists 0. now apply shows_placeholder.
    - exists 0. now apply shows_placeholder. }
  assert (Htext :
    match
      match time_of_text (strip s), time_of_text (strip e) with
      | Some ts, Some te =>
          Ok (if minute_of_day te <? minute_of_day ts
              then minute_of_day te - minute_of_day ts + 1440
              else minute_of_day te - minute_of_day ts)
      | _, _ => Raise ValueError
      end
    with
    | Ok minutes => Ok (_format_minutes minutes)
    | Raise ValueError => Ok placeholder
    | Raise e0 => Raise e0
    end = Ok (duration_text s e)).
  { unfold duration_text, duration_between.
    destruct (time_of_text (strip s)); [|reflexivity].
    destruct (time_of_text (strip e)); reflexivity. }
  rewrite Htext. cbn [bind].
  pose proof (Forall_set_row displayed (table w) row _ Hall Hnew) as Hall'.
  destruct (displayed_shows _ Hall') as [ds Hds].
  eexists. split; [|split].
  - apply (update_total_label_shows
             (mkWindow (date_picker w)
                (set_row row (set_duration_text r (duration_text s e)) (table w))
                (total_label w)) ds Hds).
  - cbn [table]. eapply nth_error_set_row; eauto.
  - exact Hall'.
Qed.

End DayReplace.

(* ================================================================= *)
(** ** The duration displays of the forms the program builds *)

Section FormStates.

Lemma append_entry_displayed (entry : StudyEntry) (w : window) :
  Forall displayed (table w) -> Forall displayed (table (_append_entry entry w)).
Proof.
  intros H. cbn [_append_entry table]. apply Forall_app. split; [exact H|].
  constructor; [|constructor].
  exists (duration_minutes entry). now apply shows_duration.
Qed.

Lemma append_entries_displayed (entries : list StudyEntry) : forall w,
  Forall displayed (table w) ->
  Forall displayed
    (table (fold_left (fun acc entry => _append_entry entry acc) entries w)).
Proof.
  induction entries as [|e entries IH]; intros w H; [exact H|].
  cbn [fold_left]. now apply IH, append_entry_displayed.
Qed.

Lemma nth_error_last (rows : list table_row) (r : table_row) :
  nth_error (rows ++ [r]) (List.length rows) = Some r.
Proof. induction rows as [|r0 rows IH]; [reflexivity | exact IH]. Qed.

(** [add_empty_row] does not raise on such a form and keeps it such. *)
Lemma add_empty_row_displayed (w : window) :
  Forall displayed (table w) ->
  exists w', add_empty_row w = Ok w' /\ Forall displayed (table w').
Proof.
  intros H. unfold add_empty_row.
  set (r := mkTableRow (Some "") (Some "") (Some (hd "" CATEGORY_OPTIONS))
                       (Some placeholder) (Some "")).
  destruct (update_duration_row
              (mkWindow (date_picker w) (table w ++ [r]) (total_label w))
              (List.length (table w)) r "" "" placeholder)
    as (w' & Hw & _ & Hd); try reflexivity.
  - apply nth_error_last.
  - cbn [table]. apply Forall_app. split; [exact H|].
    constructor; [|constructor]. exists 0. now apply shows_placeholder.
  - eauto.
Qed.

(** So does [load_entries_for_date], whatever the store holds. *)
Lemma load_entries_displayed (w : window) (wd : world) :
  exists w', load_entries_for_date w wd = Ok w' /\ Forall displayed (table w').
Proof.
  unfold load_entries_for_date.
  set (entries := fetch_entries (date_picker w) (storage wd)).
  set (w1 := fold_left (fun acc entry => _append_entry entry acc) entries
               (mkWindow (date_picker w) [] (total_label w))).
  assert (H1 : Forall displayed (table w1))
    by (apply append_entries_displayed; constructor).
  assert (H2 : exists w2,
             match entries with [] => add_empty_row w1 | _ :: _ => Ok w1 end
             = Ok w2 /\ Forall displayed (table w2)).
  { destruct entries; [now apply add_empty_row_displayed | eauto]. }
  destruct H2 as (w2 & -> & Hd2). cbn [bind].
  destruct (displayed_shows _ Hd2) as [ds Hds].
  rewrite (update_total_label_shows _ _ Hds). eauto.
Qed.

End FormStates.

(* ================================================================= *)
(** ** The properties of the specification *)

(** C4.  For two texts that denote times of day, the second not earlier
    than the first, [minutes_between] returns the second time minus the
    first, in whole minutes.  Every text of the form [HH:MM] denotes a
    time of day ([HH_MM_time_of_text]), and so do the forms with a single
    digit that [strptime] admits as well. *)
Theorem duration_same_day (s e : string) (ts te : Z * Z) :
  time_of_text s = Some ts ->
  time_of_text e = Some te ->
  minute_of_day ts <= minute_of_day te ->
  minutes_between s e = Ok (minute_of_day te - minute_of_day ts).
Proof.
  intros Hs He Hle. rewrite minutes_between_spec, Hs, He.
  replace (minute_of_day te <? minute_of_day ts) with false by lia.
  reflexivity.
Qed.

Lemma duration_same_day_witness : minutes_between "09:00" "10:30" = Ok 90.
Proof.
  apply (duration_same_day "09:00" "10:30" (9, 0) (10, 30)).
  - reflexivity.
  - reflexivity.
  - vm_compute. discriminate.
Defined.

(** C5.  For two texts that denote times of day, the second earlier than
    the first, [minutes_between] returns the second time minus the first
    plus 1440 minutes; from 23:30 to 00:15 that is 45 minutes. *)
Theorem duration_overnight (s e : string) (ts te : Z * Z) :
  time_of_text s = Some ts ->
  time_of_text e = Some te ->
  minute_of_day te < minute_of_day ts ->
  minutes_between s e = Ok (minute_of_day te - minute_of_day ts + 1440).
Proof.
  intros Hs He Hlt. rewrite minutes_between_spec, Hs, He.
  replace (minute_of_day te <? minute_of_day ts) with true by lia.
  reflexivity.
Qed.

Lemma duration_overnight_witness : minutes_between "23:30" "00:15" = Ok 45.
Proof.
  apply (duration_overnight "23:30" "00:15" (23, 30) (0, 15)).
  - reflexivity.
  - reflexivity.
  - reflexivity.
Defined.

(** C10.  For every integer [m >= 0], parsing the text that
    [_format_minutes] makes of [m] gives [m] back. *)
Theorem parse_format_round_trip (m : Z) :
  0 <= m -> _parse_duration_text (_format_minutes m) = Ok m.
Proof. intros _. apply parse_format. Qed.

Lemma parse_format_round_trip_witness :
  _format_minutes 135 = "2h 15m" /\ _parse_duration_text "2h 15m" = Ok 135.
Proof.
  split.
  - reflexivity.
  - apply (parse_format_round_trip 135). vm_compute. discriminate.
Defined.

(** C7.  When every row shows the placeholder (or no duration) or the
    text of a duration, [update_total_label] sets the label to the sum of
    the durations shown, the other rows counting for nothing; rows that
    show 90 and 45 minutes give the label "Total: 2h 15m". *)
Theorem running_total (w : window) (ds : list Z) :
  Forall2 shows (table w) ds ->
  update_total_label w
  = Ok (mkWindow (date_picker w) (table w)
          ("Total: " ++ str (sum ds / 60) ++ "h " ++ str (sum ds mod 60) ++ "m")).
Proof. apply update_total_label_shows. Qed.

Lemma running_total_witness :
  update_total_label totals_form
  = Ok (mkWindow day (table totals_form) "Total: 2h 15m").
Proof.
  apply (running_total totals_form [90; 0; 45]).
  apply Forall2_cons; [apply (shows_duration _ 90); reflexivity|].
  apply Forall2_cons; [apply shows_placeholder; reflexivity|].
  apply Forall2_cons; [apply (shows_duration _ 45); reflexivity|].
  apply Forall2_nil.
Defined.

(** C3.  When a row of the form fails to parse, that is, when
    [minutes_between] raises on the two texts of a row that has its items
    and its selector, [save_entries] leaves the store as it is, without a
    commit, saves none of the rows, and shows one warning whose lines
    name, once each and in ascending order, the numbers, counted from
    one, of all the rows that fail. *)
Theorem save_rejects_invalid_rows (w : window) (wd : world) (r : table_row) :
  In r (table w) -> raises_at_save r = true ->
  save_entries w wd
  = (Ok tt,
     mkWorld (storage wd)
       (dialogs wd
        ++ [(Warning, "Validation errors",
             join newline (map error_line (refused_rows (table w))))]))
  /\ refused_rows (table w) <> []
  /\ StronglySorted Z.lt (refused_rows (table w))
  /\ (forall n,
        In n (refused_rows (table w))
        <-> exists i r', nth_error (table w) i = Some r'
                         /\ raises_at_save r' = true
                         /\ n = Z.of_nat i + 1).
Proof.
  intros Hin Hf.
  assert (Ho : refused_rows (table w) = offending_rows (table w))
    by apply refused_rows_from_offending.
  rewrite raises_at_save_fails in Hf.
  pose proof (fails_offending _ _ Hin Hf) as Hne.
  rewrite Ho. split; [now apply save_entries_invalid|].
  split; [exact Hne|]. rewrite <- Ho. split.
  - apply refused_rows_from_sorted.
  - intros n. unfold refused_rows. rewrite refused_rows_from_iff.
    split; intros (i & r' & Hr & Hr' & ->); exists i, r';
      repeat split; auto; lia.
Qed.

Lemma save_rejects_invalid_rows_witness :
  save_entries bad_form (mkWorld disk_with_morning [])
  = (Ok tt,
     mkWorld disk_with_morning
       [(Warning, "Validation errors",
         "Row 1: invalid time format (use HH:MM).")])
  /\ refused_rows (table bad_form) <> []
  /\ StronglySorted Z.lt (refused_rows (table bad_form))
  /\ (forall n,
        In n (refused_rows (table bad_form))
        <-> exists i r', nth_error (table bad_form) i = Some r'
                         /\ raises_at_save r' = true
                         /\ n = Z.of_nat i + 1).
Proof.
  apply (save_rejects_invalid_rows bad_form (mkWorld disk_with_morning [])
           (shown_row "bad" "10:00" placeholder)).
  - left. reflexivity.
  - reflexivity.
Defined.

(** C6.  Replacing the records of a day by the empty list commits the
    deletion and nothing else, [insert_entries] returning before it
    opens a connection, and the day then reads as empty. *)
Theorem replace_day_empty (d : string) (dk : disk) :
  replace_day d [] dk = delete_entries_for_date d dk
  /\ insert_entries [] (delete_entries_for_date d dk)
     = delete_entries_for_date d dk
  /\ history (replace_day d [] dk)
     = (history dk ++ [sql_delete d (committed dk)])%list
  /\ fetch_day d (replace_day d [] dk) = [].
Proof.
  repeat split.
  unfold fetch_day. rewrite fetch_after_replace by constructor.
  reflexivity.
Qed.

(** C2, as the code has it.  After the day replace of [d] by entries
    that are all dated [d], given in any order, a fetch of [d] returns
    exactly these entries, in ascending order of [start_time] compared as
    text; that order is the order of the times of day when every
    [start_time] has the form [HH:MM]. *)
Theorem fetch_after_replace_ordered
    (d : string) (entries inserted : list StudyEntry) (dk : disk) :
  Permutation inserted entries ->
  Forall (fun e => date_iso e = d) entries ->
  Permutation (fetch_day d (replace_day d inserted dk)) entries
  /\ ascending start_text_leb (fetch_day d (replace_day d inserted dk)) = true
  /\ (Forall (fun e => is_HH_MM (start_time e) = true) entries ->
      ascending start_chrono_leb (fetch_day d (replace_day d inserted dk))
      = true).
Proof.
  intros Hperm Hd.
  assert (Hd' : Forall (fun e => date_iso e = d) inserted).
  { eapply Permutation_Forall; [symmetry; exact Hperm | exact Hd]. }
  unfold fetch_day. rewrite (fetch_after_replace _ _ _ Hd').
  set (rows := new_rows (sqlite_sequence (committed dk)) inserted).
  assert (Hp : Permutation (map entry_of_row (order_by_start_time rows)) entries).
  { rewrite order_by_start_time_perm. unfold rows.
    now rewrite entry_of_new_rows. }
  assert (Hs : ascending start_text_leb
                 (map entry_of_row (order_by_start_time rows)) = true).
  { rewrite ascending_map_entry. apply order_by_start_time_ascending. }
  repeat split; [exact Hp | exact Hs |].
  intros Hf.
  apply (ascending_impl (fun e => is_HH_MM (start_time e) = true)
           start_text_leb); [| | exact Hs].
  - intros a b Ha Hb Hab. unfold start_chrono_leb.
    destruct (HH_MM_leb_chrono _ _ Ha Hb Hab) as (ta & tb & -> & -> & Hle).
    lia.
  - eapply Permutation_Forall; [symmetry; exact Hp | exact Hf].
Qed.

Lemma fetch_after_replace_ordered_witness :
  Permutation (fetch_day day (replace_day day [at_ten; morning] empty_disk))
              [morning; at_ten]
  /\ ascending start_text_leb
       (fetch_day day (replace_day day [at_ten; morning] empty_disk)) = true
  /\ (Forall (fun e => is_HH_MM (start_time e) = true) [morning; at_ten] ->
      ascending start_chrono_leb
        (fetch_day day (replace_day day [at_ten; morning] empty_disk)) = true).
Proof.
  apply (fetch_after_replace_ordered day [morning; at_ten] [at_ten; morning]
           empty_disk).
  - apply perm_swap.
  - repeat constructor.
Defined.

(** C2, as the claim has it, fails: start times written ["9:00"] and
    ["10:00"] are fetched with ["10:00"] first, which is their order as
    text and not their order as times of day. *)
Lemma fetch_order_not_chronological :
  fetch_day day (replace_day day [at_nine; at_ten] empty_disk)
  = [at_ten; at_nine]
  /\ ascending start_chrono_leb
       (fetch_day day (replace_day day [at_nine; at_ten] empty_disk)) = false
  /\ minutes_between "9:00" "9:30" = Ok 30.
Proof. repeat split. Qed.

(** C1, as the code has it.  A save of rows that all parse replaces the
    records of the day in two transactions, each committed by itself:
    the deletion first, then the insertion.  Between the two commits the
    store durably holds the state in which the day is empty and the
    other days are as before; after the second it holds the new
    entries. *)
Theorem save_commits_delete_then_insert (w : window) (wd : world) :
  offending_rows (table w) = [] ->
  parsed_entries (date_picker w) (table w) <> [] ->
  history (storage (snd (save_entries w wd)))
  = (history (storage wd)
     ++ [sql_delete (date_picker w) (committed (storage wd));
         committed (storage (snd (save_entries w wd)))])%list
  /\ sql_select (date_picker w)
       (sql_delete (date_picker w) (committed (storage wd))) = []
  /\ (forall d', d' <> date_picker w ->
        sql_select d' (sql_delete (date_picker w) (committed (storage wd)))
        = sql_select d' (committed (storage wd)))
  /\ Permutation
       (fetch_entries (date_picker w) (storage (snd (save_entries w wd))))
       (parsed_entries (date_picker w) (table w)).
Proof.
  intros He Hn. rewrite (save_entries_valid _ _ He Hn). cbn [snd storage].
  split; [now apply replace_day_history|].
  split; [apply select_deleted|].
  split; [intros d' Hd'; now apply select_other_day|].
  apply fetch_replace_perm, parsed_entries_dated.
Qed.

Lemma save_commits_delete_then_insert_witness :
  history (storage after_evening_save)
  = (history disk_with_morning
     ++ [sql_delete day (committed disk_with_morning);
         committed (storage after_evening_save)])%list
  /\ sql_select day (sql_delete day (committed disk_with_morning)) = []
  /\ (forall d', d' <> day ->
        sql_select d' (sql_delete day (committed disk_with_morning))
        = sql_select d' (committed disk_with_morning))
  /\ Permutation (fetch_entries day (storage after_evening_save)) [evening].
Proof.
  apply (save_commits_delete_then_insert evening_form
           (mkWorld disk_with_morning [])).
  - reflexivity.
  - discriminate.
Defined.

(** C1, as the claim has it, fails: saving the evening form over a store
    that holds a morning session commits, before the state with the new
    entry, a state in which the day has no entry at all. *)
Lemma save_exposes_cleared_day :
  fetch_entries day disk_with_morning = [morning]
  /\ history (storage after_evening_save)
     = (history disk_with_morning
        ++ [cleared; committed (storage after_evening_save)])%list
  /\ sql_select day cleared = []
  /\ fetch_entries day (storage after_evening_save) = [evening].
Proof. repeat split. Qed.

(** C8, as the code has it.  For two time texts of ASCII characters,
    the duration of a row fails to compute, and the row shows the
    placeholder, exactly when one of the two texts, white space around
    it dropped, is not an hour from 0 to 23 and a minute from 0 to 59
    written with one or two digits each and a colon between them;
    otherwise the row shows the duration computed.  Every pair of texts
    of the form [HH:MM] computes. *)
Theorem duration_display (w : window) (row : nat) (r : table_row)
    (s e t0 : string) :
  nth_error (table w) row = Some r ->
  start_item r = Some s -> end_item r = Some e -> duration_item r = Some t0 ->
  Forall displayed (table w) ->
  is_ascii_text s = true -> is_ascii_text e = true ->
  (minutes_between (strip s) (strip e) = Raise ValueError
   <-> time_of_text (strip s) = None \/ time_of_text (strip e) = None)
  /\ (forall ts te,
        time_of_text (strip s) = Some ts -> time_of_text (strip e) = Some te ->
        minutes_between (strip s) (strip e) = Ok (duration_between ts te))
  /\ (is_HH_MM s = true -> is_HH_MM e = true ->
      exists ts te, time_of_text (strip s) = Some ts
                    /\ time_of_text (strip e) = Some te)
  /\ exists w',
       _update_duration_for_row row w = Ok w'
       /\ nth_error (table w') row
          = Some (set_duration_text r (duration_text s e)).
Proof.
  intros Hr Hs He Ht Hall _ _. repeat split.
  - rewrite minutes_between_spec.
    destruct (time_of_text (strip s)); [|auto].
    destruct (time_of_text (strip e)); [discriminate|auto].
  - rewrite minutes_between_spec.
    intros [-> | H]; [reflexivity|].
    rewrite H. now destruct (time_of_text (strip s)).
  - intros ts te Es Ee. now rewrite minutes_between_spec, Es, Ee.
  - intros Hsf Hef. rewrite (HH_MM_strip _ Hsf), (HH_MM_strip _ Hef).
    apply HH_MM_time_of_text in Hsf as (? & ? & ? & ? & _ & _ & _ & _ & _ & _ & _ & ->).
    apply HH_MM_time_of_text in Hef as (? & ? & ? & ? & _ & _ & _ & _ & _ & _ & _ & ->).
    eauto.
  - destruct (update_duration_row w row r s e t0 Hr Hs He Ht Hall)
      as (w' & Hw & Hn & _).
    exists w'. split; [exact Hw | exact Hn].
Qed.

Lemma duration_display_witness :
  (minutes_between (strip " 9:05") (strip "bad") = Raise ValueError
   <-> time_of_text (strip " 9:05") = None \/ time_of_text (strip "bad") = None)
  /\ (forall ts te,
        time_of_text (strip " 9:05") = Some ts ->
        time_of_text (strip "bad") = Some te ->
        minutes_between (strip " 9:05") (strip "bad")
        = Ok (duration_between ts te))
  /\ (is_HH_MM " 9:05" = true -> is_HH_MM "bad" = true ->
      exists ts te, time_of_text (strip " 9:05") = Some ts
                    /\ time_of_text (strip "bad") = Some te)
  /\ exists w',
       _update_duration_for_row 0 (form_of [typed_row " 9:05" "bad"]) = Ok w'
       /\ nth_error (table w') 0
          = Some (set_duration_text (typed_row " 9:05" "bad") placeholder).
Proof.
  apply (duration_display (form_of [typed_row " 9:05" "bad"]) 0%nat
           (typed_row " 9:05" "bad") " 9:05" "bad" placeholder).
  - reflexivity.
  - reflexivity.
  - reflexivity.
  - reflexivity.
  - apply Forall_cons; [|apply Forall_nil].
    exists 0. apply shows_placeholder. reflexivity.
  - reflexivity.
  - reflexivity.
Defined.

(** C8, as the claim has it, fails: the start ["9:05"] is not of the form
    [HH:MM], yet the duration to ["10:30"] computes and the row shows
    ["1h 25m"]. *)
Lemma short_hour_is_accepted :
  is_HH_MM "9:05" = false
  /\ minutes_between (strip "9:05") (strip "10:30") = Ok 85
  /\ _update_duration_for_row 0 (form_of [typed_row "9:05" "10:30"])
     = Ok (mkWindow day [shown_row "9:05" "10:30" "1h 25m"] "Total: 1h 25m").
Proof. repeat split. Qed.

(** C9.  A form with the single row 09:00 to 10:30 shows "1h 30m" as the
    duration of the row, and saving it stores an entry whose
    [duration_minutes] is 90, which is what the day then reads as. *)
Theorem save_one_row (d : string) (wd : world) :
  _update_duration_for_row 0 (one_row_form d)
  = Ok (mkWindow d [shown_row "09:00" "10:30" "1h 30m"] "Total: 1h 30m")
  /\ save_entries (mkWindow d [shown_row "09:00" "10:30" "1h 30m"] "Total: 1h 30m") wd
     = (Ok tt,
        mkWorld (replace_day d [mkStudyEntry d "09:00" "10:30" "GenAI" 90]
                   (storage wd))
          (dialogs wd ++ [(Information, "Saved", "Entries saved to database.")]))
  /\ fetch_entries d
       (storage (snd (save_entries
          (mkWindow d [shown_row "09:00" "10:30" "1h 30m"] "Total: 1h 30m") wd)))
     = [mkStudyEntry d "09:00" "10:30" "GenAI" 90].
Proof.
  assert (Hsave :
    save_entries (mkWindow d [shown_row "09:00" "10:30" "1h 30m"] "Total: 1h 30m") wd
    = (Ok tt,
       mkWorld (replace_day d [mkStudyEntry d "09:00" "10:30" "GenAI" 90]
                  (storage wd))
         (dialogs wd ++ [(Information, "Saved", "Entries saved to database.")]))).
  { rewrite save_entries_valid; [reflexivity | reflexivity | discriminate]. }
  split; [reflexivity|]. split; [exact Hsave|].
  rewrite Hsave. cbn [snd storage].
  rewrite fetch_after_replace by (constructor; [reflexivity | constructor]).
  reflexivity.
Qed.

(* ================================================================= *)
(** ** Further properties of the code *)

Section MoreDurations.

Lemma str_inj (m n : Z) : str m = str n -> m = n.
Proof.
  intros H. pose proof (int_str m) as Hm. rewrite H, int_str in Hm.
  now injection Hm.
Qed.

Lemma _format_minutes_inj (m n : Z) :
  _format_minutes m = _format_minutes n -> m = n.
Proof.
  intros H. pose proof (parse_format m) as Hm. rewrite H, parse_format in Hm.
  now injection Hm.
Qed.

Lemma replace_spaces (old : ascii) (new s : string) :
  is_space old = false -> all_chars is_space s = true -> replace old new s = s.
Proof.
  intros Hold. induction s as [|c s IH]; simpl; [reflexivity|].
  intros H. apply andb_true_iff in H as [Hc Hs].
  destruct (Ascii.eqb c old) eqn:E.
  - apply Ascii.eqb_eq in E. congruence.
  - now rewrite IH.
Qed.

Lemma split_spaces (s : string) :
  all_chars is_space s = true -> split_from "" s = [].
Proof.
  induction s as [|c s IH]; simpl; [reflexivity|].
  intros H. apply andb_true_iff in H as [-> Hs]. now apply IH.
Qed.

End MoreDurations.

(** X1.  [minutes_between] either raises [ValueError] or returns a
    number of minutes from 0 to 1439: never a negative duration, never a
    whole day. *)
Theorem minutes_between_within_a_day (s e : string) :
  minutes_between s e = Raise ValueError
  \/ exists d, minutes_between s e = Ok d /\ 0 <= d < 1440.
Proof.
  destruct (minutes_between s e) as [d|x] eqn:H.
  - right. exists d. split; [reflexivity|]. now apply minutes_between_range in H.
  - left. now rewrite (minutes_between_raises _ _ _ H).
Qed.

(** X2.  For two texts that denote times of day: when they denote the
    same time the duration is 0 in both directions, and otherwise the
    duration from the first to the second and the duration back add up
    to the 1440 minutes of a day. *)
Theorem minutes_between_there_and_back (s e : string) (ts te : Z * Z) :
  time_of_text s = Some ts ->
  time_of_text e = Some te ->
  (minute_of_day ts = minute_of_day te ->
   minutes_between s e = Ok 0 /\ minutes_between e s = Ok 0)
  /\ (minute_of_day ts <> minute_of_day te ->
      exists a b, minutes_between s e = Ok a /\ minutes_between e s = Ok b
                  /\ a + b = 1440).
Proof.
  intros Hs He. rewrite !minutes_between_spec, Hs, He. split.
  - intros Heq. rewrite Heq, Z.ltb_irrefl, Z.sub_diag. auto.
  - intros Hne. do 2 eexists. do 2 (split; [reflexivity|]).
    destruct (minute_of_day te <? minute_of_day ts) eqn:E1;
      destruct (minute_of_day ts <? minute_of_day te) eqn:E2; lia.
Qed.

Lemma minutes_between_there_and_back_witness :
  (minute_of_day (23, 30) = minute_of_day (0, 15) ->
   minutes_between "23:30" "00:15" = Ok 0
   /\ minutes_between "00:15" "23:30" = Ok 0)
  /\ (minute_of_day (23, 30) <> minute_of_day (0, 15) ->
      exists a b, minutes_between "23:30" "00:15" = Ok a
                  /\ minutes_between "00:15" "23:30" = Ok b /\ a + b = 1440).
Proof.
  apply (minutes_between_there_and_back "23:30" "00:15" (23, 30) (0, 15)).
  - reflexivity.
  - reflexivity.
Defined.

(** X3.  [_format_minutes] shows different durations differently: two
    durations have the same text only when they are equal. *)
Theorem format_minutes_distinguishes (m n : Z) :
  String.eqb (_format_minutes m) (_format_minutes n) = (m =? n).
Proof.
  destruct (Z.eqb_spec m n) as [->|Hne].
  - apply String.eqb_refl.
  - apply String.eqb_neq. intros H. now apply _format_minutes_inj in H.
Qed.

(** X4.  [_parse_duration_text] raises [IndexError] on a text that is
    not empty and holds nothing but white space: [split] leaves no part
    for [parts[0]]. *)
Theorem parse_blank_text_raises (text : string) :
  is_empty text = false ->
  all_chars is_space text = true ->
  _parse_duration_text text = Raise IndexError.
Proof.
  intros Hne Hsp. unfold _parse_duration_text. rewrite Hne, orb_false_r.
  assert (Hp : String.eqb text placeholder = false).
  { apply String.eqb_neq. intros ->. discriminate Hsp. }
  rewrite Hp.
  rewrite (replace_spaces "h" "" text), (replace_spaces "m" "" text)
    by (reflexivity || assumption).
  unfold split. now rewrite split_spaces.
Qed.

Lemma parse_blank_text_raises_witness :
  _parse_duration_text "  " = Raise IndexError.
Proof.
  apply (parse_blank_text_raises "  ").
  - reflexivity.
  - reflexivity.
Defined.

Section MoreStore.

Lemma map_order_insert (r : log_row) (rows : list log_row) :
  map entry_of_row (order_insert r rows)
  = insert_entry (entry_of_row r) (map entry_of_row rows).
Proof.
  induction rows as [|r' rows IH]; [reflexivity|].
  cbn [order_insert map insert_entry].
  change (start_time (entry_of_row r)) with (row_start_time r).
  change (start_time (entry_of_row r')) with (row_start_time r').
  destruct (String.leb (row_start_time r) (row_start_time r'));
    [reflexivity|].
  cbn [map]. now rewrite IH.
Qed.

Lemma map_order_by (rows : list log_row) :
  map entry_of_row (order_by_start_time rows)
  = sort_entries (map entry_of_row rows).
Proof.
  induction rows as [|r rows IH]; [reflexivity|].
  cbn [order_by_start_time fold_right map sort_entries].
  fold (order_by_start_time rows). fold (sort_entries (map entry_of_row rows)).
  now rewrite map_order_insert, IH.
Qed.

Lemma fetch_sorted_stored (d : string) (dk : disk) :
  fetch_entries d dk = sort_entries (stored d dk).
Proof. rewrite fetch_entries_rows. apply map_order_by. Qed.

Lemma sort_entries_perm (entries : list StudyEntry) :
  Permutation (sort_entries entries) entries.
Proof.
  induction entries as [|e entries IH]; [reflexivity|].
  cbn [sort_entries fold_right]. fold (sort_entries entries).
  transitivity (e :: sort_entries entries); [|now constructor].
  generalize (sort_entries entries) as l. clear. intros l.
  induction l as [|e' l IH]; [reflexivity|].
  cbn [insert_entry].
  destruct (String.leb (start_time e) (start_time e')); [reflexivity|].
  rewrite IH. apply perm_swap.
Qed.

Lemma dated_new_rows (d : string) (entries : list StudyEntry) : forall k,
  map entry_of_row
      (filter (fun r => String.eqb (study_date r) d) (new_rows k entries))
  = dated d entries.
Proof.
  induction entries as [|e entries IH]; intros k; [reflexivity|].
  cbn [new_rows filter dated study_date].
  destruct (String.eqb (date_iso e) d); cbn [map]; rewrite IH;
    [now destruct e | reflexivity].
Qed.

Lemma stored_insert (d : string) (entries : list StudyEntry) (dk : disk) :
  stored d (insert_entries entries dk) = (stored d dk ++ dated d entries)%list.
Proof.
  unfold stored, insert_entries.
  destruct entries as [|e entries].
  - cbn [map dated filter]. now rewrite app_nil_r.
  - set (es := e :: entries).
    change (map entry_params es) with (entry_params e :: map entry_params entries)
      at 1.
    cbv iota. cbn [commit committed]. rewrite executemany_insert_rows.
    cbn [study_logs]. now rewrite filter_app, map_app, dated_new_rows.
Qed.

Lemma stored_delete (d : string) (dk : disk) :
  stored d (delete_entries_for_date d dk) = [].
Proof.
  unfold stored, delete_entries_for_date.
  cbn [commit committed sql_delete study_logs]. now rewrite filter_deleted.
Qed.

Lemma stored_delete_other (d d' : string) (dk : disk) :
  d' <> d -> stored d' (delete_entries_for_date d dk) = stored d' dk.
Proof.
  intros H. unfold stored, delete_entries_for_date.
  cbn [commit committed sql_delete study_logs]. now rewrite filter_other_date.
Qed.

Lemma stored_dated (d : string) (dk : disk) :
  Forall (fun e => date_iso e = d) (stored d dk).
Proof.
  unfold stored. apply Forall_map, Forall_forall.
  intros r Hr. apply filter_In in Hr as [_ Hr].
  now apply String.eqb_eq in Hr.
Qed.

Lemma dated_other_day (d d' : string) (entries : list StudyEntry) :
  d' <> d -> Forall (fun e => date_iso e = d) entries -> dated d' entries = [].
Proof.
  intros Hd. induction 1 as [|e entries He _ IH]; [reflexivity|].
  cbn [dated filter]. fold (dated d' entries).
  destruct (String.eqb (date_iso e) d') eqn:E; [|exact IH].
  apply String.eqb_eq in E. congruence.
Qed.

Lemma replace_day_other_day (d d' : string) (entries : list StudyEntry)
    (dk : disk) :
  d' <> d -> Forall (fun e => date_iso e = d) entries ->
  fetch_entries d' (replace_day d entries dk) = fetch_entries d' dk.
Proof.
  intros Hd He. rewrite !fetch_sorted_stored. f_equal.
  unfold replace_day.
  rewrite stored_insert, stored_delete_other, (dated_other_day d d') by assumption.
  apply app_nil_r.
Qed.

End MoreStore.

(** X5.  [fetch_entries] returns each entry the store holds for the day
    once, no entry of another day, in ascending order of [start_time] as
    text. *)
Theorem fetch_entries_of_the_day (d : string) (dk : disk) :
  Permutation (fetch_entries d dk) (stored d dk)
  /\ Forall (fun e => date_iso e = d) (fetch_entries d dk)
  /\ ascending start_text_leb (fetch_entries d dk) = true.
Proof.
  assert (Hp : Permutation (fetch_entries d dk) (stored d dk)).
  { rewrite fetch_sorted_stored. apply sort_entries_perm. }
  split; [exact Hp|]. split.
  - eapply Permutation_Forall; [symmetry; exact Hp | apply stored_dated].
  - rewrite fetch_entries_rows, ascending_map_entry.
    apply order_by_start_time_ascending.
Qed.

(** X6.  [insert_entries] adds to what the store holds: after it a day
    reads as its entries before together with the inserted entries of
    that day, so inserting without deleting first keeps the old entries
    and inserting the same entries twice stores them twice. *)
Theorem insert_entries_adds (d : string) (entries : list StudyEntry)
    (dk : disk) :
  Permutation (fetch_entries d (insert_entries entries dk))
              (fetch_entries d dk ++ dated d entries).
Proof.
  rewrite !fetch_sorted_stored, stored_insert, !sort_entries_perm.
  reflexivity.
Qed.

(** X7.  [delete_entries_for_date] empties the day it is given and
    leaves what every other day reads as unchanged. *)
Theorem delete_entries_only_that_day (d : string) (dk : disk) :
  fetch_entries d (delete_entries_for_date d dk) = []
  /\ forall d', d' <> d ->
       fetch_entries d' (delete_entries_for_date d dk) = fetch_entries d' dk.
Proof.
  split.
  - now rewrite fetch_sorted_stored, stored_delete.
  - intros d' Hd. now rewrite !fetch_sorted_stored, stored_delete_other.
Qed.

(** X8.  What a day reads as after its replacement does not depend on
    what the store held before: it is the given entries in ascending
    order of [start_time] as text, entries with the same [start_time] in
    the order given.  Replacing a day twice by the same entries reads as
    replacing it once. *)
Theorem replace_day_forgets_the_past (d : string) (entries : list StudyEntry)
    (dk : disk) :
  Forall (fun e => date_iso e = d) entries ->
  fetch_entries d (replace_day d entries dk) = sort_entries entries
  /\ fetch_entries d (replace_day d entries (replace_day d entries dk))
     = fetch_entries d (replace_day d entries dk).
Proof.
  intros Hd.
  assert (H : forall dk0,
             fetch_entries d (replace_day d entries dk0) = sort_entries entries).
  { intros dk0. rewrite (fetch_after_replace _ _ _ Hd), map_order_by.
    now rewrite entry_of_new_rows. }
  now rewrite !H.
Qed.

Lemma replace_day_forgets_the_past_witness :
  fetch_entries day (replace_day day [at_ten; morning] disk_with_morning)
  = [morning; at_ten]
  /\ fetch_entries day
       (replace_day day [at_ten; morning]
          (replace_day day [at_ten; morning] disk_with_morning))
     = fetch_entries day (replace_day day [at_ten; morning] disk_with_morning).
Proof.
  apply (replace_day_forgets_the_past day [at_ten; morning] disk_with_morning).
  repeat constructor.
Defined.

Section MoreCollect.

Lemma rstrip_idem (s : string) : rstrip (rstrip s) = rstrip s.
Proof.
  induction s as [|c s IH]; [reflexivity|].
  cbn [rstrip]. destruct (is_space c && is_empty (rstrip s)) eqn:E;
    [reflexivity|].
  cbn [rstrip]. now rewrite IH, E.
Qed.

Lemma lstrip_head (s : string) :
  lstrip s = "" \/ exists c r, lstrip s = String c r /\ is_space c = false.
Proof.
  induction s as [|c s IH]; [now left|].
  cbn [lstrip]. destruct (is_space c) eqn:E; [exact IH|].
  right. eauto.
Qed.

Lemma strip_idem (s : string) : strip (strip s) = strip s.
Proof.
  unfold strip. destruct (lstrip_head s) as [->|(c & r & -> & Hc)];
    [reflexivity|].
  cbn [rstrip]. rewrite Hc. cbn [andb lstrip]. rewrite Hc.
  change (String c (rstrip r)) with (String c (rstrip r)).
  pose proof (rstrip_idem (String c r)) as H.
  cbn [rstrip] in H. rewrite Hc in H. cbn [andb] in H. exact H.
Qed.

Lemma entry_of_table_row_saved (d : string) (r : table_row) :
  Forall (saved_entry d) (entry_of_table_row d r).
Proof.
  unfold entry_of_table_row.
  destruct (start_item r) as [s|]; [|constructor].
  destruct (end_item r) as [e|]; [|constructor].
  destruct (category_widget r) as [c|]; [|constructor].
  destruct (time_of_text (strip s)) as [ts|] eqn:Es; [|constructor].
  destruct (time_of_text (strip e)) as [te|] eqn:Ee; [|constructor].
  constructor; [|constructor].
  unfold saved_entry.
  cbn [date_iso start_time end_time category duration_minutes].
  split; [reflexivity|]. split; [apply strip_idem|].
  split; [apply strip_idem|]. split; [now destruct c|].
  split; [|now apply (duration_between_range _ _ _ _ Es Ee)].
  now rewrite minutes_between_spec, Es, Ee.
Qed.

Lemma parsed_entries_saved (d : string) (rows : list table_row) :
  Forall (saved_entry d) (parsed_entries d rows).
Proof.
  induction rows as [|r rows IH]; [constructor|].
  cbn [parsed_entries flat_map]. apply Forall_app.
  split; [apply entry_of_table_row_saved | exact IH].
Qed.

Lemma same_input_entry (d : string) (r1 r2 : table_row) :
  same_input r1 r2 -> entry_of_table_row d r1 = entry_of_table_row d r2.
Proof.
  intros (Hs & He & Hc). unfold entry_of_table_row. now rewrite Hs, He, Hc.
Qed.

Lemma same_input_fails (r1 r2 : table_row) :
  same_input r1 r2 -> fails_to_parse r1 = fails_to_parse r2.
Proof.
  intros (Hs & He & Hc). unfold fails_to_parse. now rewrite Hs, He, Hc.
Qed.

Lemma same_input_parsed (d : string) (rows1 rows2 : list table_row) :
  Forall2 same_input rows1 rows2 ->
  parsed_entries d rows1 = parsed_entries d rows2.
Proof.
  induction 1 as [|r1 r2 rows1 rows2 Hr _ IH]; [reflexivity|].
  cbn [parsed_entries flat_map]. fold (parsed_entries d rows1).
  fold (parsed_entries d rows2). now rewrite (same_input_entry d _ _ Hr), IH.
Qed.

Lemma same_input_offending (rows1 rows2 : list table_row) :
  Forall2 same_input rows1 rows2 ->
  forall k, offending_rows_from k rows1 = offending_rows_from k rows2.
Proof.
  induction 1 as [|r1 r2 rows1 rows2 Hr _ IH]; intros k; [reflexivity|].
  cbn [offending_rows_from]. now rewrite (same_input_fails _ _ Hr), IH.
Qed.

(** A save that finds no row to save. *)
Lemma save_entries_nothing (w : window) (wd : world) :
  offending_rows (table w) = [] ->
  parsed_entries (date_picker w) (table w) = [] ->
  save_entries w wd
  = (Ok tt,
     mkWorld (storage wd)
       (dialogs wd ++ [(Information, "Nothing to save", "No rows to save.")])).
Proof.
  intros He Hn. unfold save_entries. now rewrite collect_entries_spec, He, Hn.
Qed.

End MoreCollect.

(** X9.  [collect_entries] never raises, and every entry it returns is
    dated with the date of the form, has times without white space around
    them, a category that is not empty, and as [duration_minutes] the
    duration that [minutes_between] computes from its own two times, a
    number from 0 to 1439. *)
Theorem collect_entries_well_formed (w : window) :
  exists entries errors,
    collect_entries w = Ok (entries, errors)
    /\ Forall (saved_entry (date_picker w)) entries.
Proof.
  rewrite collect_entries_spec. do 2 eexists. split; [reflexivity|].
  apply parsed_entries_saved.
Qed.

(** X10.  [collect_entries] returns one error line for each row that
    has its items and its selector and on whose texts [minutes_between]
    raises, and no other line: the lines carry the numbers of these rows,
    counted from one, each number once and in ascending order. *)
Theorem collect_entries_numbers_rows (w : window) :
  exists entries ns,
    collect_entries w = Ok (entries, map error_line ns)
    /\ StronglySorted Z.lt ns
    /\ forall n,
         In n ns
         <-> exists i r, nth_error (table w) i = Some r
                         /\ raises_at_save r = true
                         /\ n = Z.of_nat i + 1.
Proof.
  rewrite collect_entries_spec. exists (parsed_entries (date_picker w) (table w)).
  exists (refused_rows (table w)).
  split; [unfold refused_rows, offending_rows;
          now rewrite refused_rows_from_offending|].
  split; [apply refused_rows_from_sorted|].
  intros n. unfold refused_rows. rewrite refused_rows_from_iff.
  split; intros (i & r & Hr & Hf & ->); exists i, r; repeat split; auto; lia.
Qed.

(** X11.  When no row yields an entry and none fails, as for a form
    without rows, [save_entries] writes nothing, not even the deletion of
    the day, and shows the notice that there is nothing to save: saving
    an emptied form does not clear the day in the store. *)
Theorem save_without_rows_keeps_the_day (w : window) (wd : world) :
  offending_rows (table w) = [] ->
  parsed_entries (date_picker w) (table w) = [] ->
  save_entries w wd
  = (Ok tt,
     mkWorld (storage wd)
       (dialogs wd ++ [(Information, "Nothing to save", "No rows to save.")])).
Proof. apply save_entries_nothing. Qed.

Lemma save_without_rows_keeps_the_day_witness :
  save_entries (form_of []) (mkWorld disk_with_morning [])
  = (Ok tt,
     mkWorld disk_with_morning
       [(Information, "Nothing to save", "No rows to save.")]).
Proof.
  apply (save_without_rows_keeps_the_day (form_of [])
           (mkWorld disk_with_morning [])).
  - reflexivity.
  - reflexivity.
Defined.

(** X12.  [save_entries] reads the two time texts and the category of a
    row and nothing else: two forms of the same date whose rows agree on
    these save alike, whatever their notes, their duration displays and
    their total labels are. *)
Theorem save_ignores_notes_and_displays (w1 w2 : window) (wd : world) :
  date_picker w1 = date_picker w2 ->
  Forall2 same_input (table w1) (table w2) ->
  save_entries w1 wd = save_entries w2 wd.
Proof.
  intros Hd Hrows. unfold save_entries. rewrite !collect_entries_spec.
  unfold offending_rows.
  now rewrite Hd, (same_input_parsed _ _ _ Hrows),
    (same_input_offending _ _ Hrows).
Qed.

Lemma save_ignores_notes_and_displays_witness :
  save_entries
    (form_of [mkTableRow (Some "20:00") (Some "21:00") (Some "GenAI")
                         (Some "9h 9m") (Some "read chapter 3")])
    (mkWorld disk_with_morning [])
  = save_entries evening_form (mkWorld disk_with_morning []).
Proof.
  apply (save_ignores_notes_and_displays
           (form_of [mkTableRow (Some "20:00") (Some "21:00") (Some "GenAI")
                                (Some "9h 9m") (Some "read chapter 3")])
           evening_form (mkWorld disk_with_morning [])).
  - reflexivity.
  - apply Forall2_cons; [|apply Forall2_nil]. repeat split.
Defined.

(** X13.  Whatever the form holds, [save_entries] leaves what every day
    other than the date of the form reads as unchanged. *)
Theorem save_leaves_other_days (w : window) (wd : world) (d' : string) :
  d' <> date_picker w ->
  fetch_entries d' (storage (snd (save_entries w wd)))
  = fetch_entries d' (storage wd).
Proof.
  intros Hd.
  destruct (offending_rows (table w)) as [|n ns] eqn:He.
  - destruct (parsed_entries (date_picker w) (table w)) as [|e es] eqn:Hp.
    + now rewrite (save_entries_nothing _ _ He Hp).
    + rewrite save_entries_valid by (assumption || (rewrite Hp; discriminate)).
      cbn [snd storage].
      apply replace_day_other_day; [assumption | apply parsed_entries_dated].
  - rewrite save_entries_invalid by (rewrite He; discriminate).
    reflexivity.
Qed.

Lemma save_leaves_other_days_witness :
  fetch_entries "2024-04-30"
    (storage (snd (save_entries evening_form (mkWorld disk_with_morning []))))
  = fetch_entries "2024-04-30" disk_with_morning.
Proof.
  apply (save_leaves_other_days evening_form (mkWorld disk_with_morning [])
           "2024-04-30").
  discriminate.
Defined.

Section MoreRows.

Lemma unselected_none (sel : list nat) (rows : list table_row) : forall k,
  Forall (fun j => (j < k)%nat) sel -> unselected k sel rows = rows.
Proof.
  induction rows as [|r rows IH]; intros k H; [reflexivity|].
  cbn [unselected].
  assert (E : existsb (Nat.eqb k) sel = false).
  { apply not_true_is_false. intros Hex.
    apply existsb_exists in Hex as (j & Hj & Hkj).
    apply Nat.eqb_eq in Hkj. subst j.
    rewrite Forall_forall in H. specialize (H _ Hj). lia. }
  rewrite E, IH; [reflexivity|].
  eapply Forall_impl; [|exact H]. cbv beta. intros; lia.
Qed.

(** Removing the row [i] first leaves the rows below it where they are. *)
Lemma unselected_removeRow (i : nat) (sel : list nat)
    (rows : list table_row) : forall k,
  Forall (fun j => (j < i)%nat) sel -> (k <= i)%nat ->
  unselected k sel (removeRow (i - k) rows) = unselected k (i :: sel) rows.
Proof.
  induction rows as [|r rows IH]; intros k Hsel Hk.
  - now destruct (i - k)%nat.
  - destruct (i - k)%nat as [|n] eqn:E.
    + assert (k = i) by lia. subst k.
      cbn [removeRow unselected existsb]. rewrite Nat.eqb_refl. cbn [orb].
      rewrite unselected_none by assumption.
      rewrite unselected_none; [reflexivity|].
      constructor; [lia|].
      eapply Forall_impl; [|exact Hsel]. cbv beta. intros; lia.
    + cbn [removeRow unselected existsb].
      replace (k =? i)%nat with false by (symmetry; apply Nat.eqb_neq; lia).
      cbn [orb]. replace n with (i - S k)%nat by lia.
      rewrite IH by (assumption || lia). reflexivity.
Qed.

Lemma remove_descending (sel : list nat) : forall rows,
  StronglySorted (fun a b => (b < a)%nat) sel ->
  fold_left (fun rows row => removeRow row rows) sel rows
  = unselected 0 sel rows.
Proof.
  induction sel as [|i sel IH]; intros rows Hs.
  - cbn [fold_left]. symmetry. apply unselected_none. constructor.
  - inversion Hs as [|? ? Hs' Hlt]; subst. cbn [fold_left].
    rewrite IH by assumption.
    rewrite <- (unselected_removeRow i sel rows 0%nat) by (assumption || lia).
    now rewrite Nat.sub_0_r.
Qed.

Lemma insert_descending_perm (i : nat) (l : list nat) :
  Permutation (insert_descending i l) (i :: l).
Proof.
  induction l as [|j l IH]; [reflexivity|].
  cbn [insert_descending]. destruct (j <=? i)%nat; [reflexivity|].
  rewrite IH. apply perm_swap.
Qed.

Lemma sorted_reverse_perm (l : list nat) : Permutation (sorted_reverse l) l.
Proof.
  induction l as [|i l IH]; [reflexivity|].
  cbn [sorted_reverse fold_right]. fold (sorted_reverse l).
  rewrite insert_descending_perm. now constructor.
Qed.

Lemma insert_descending_sorted (i : nat) (l : list nat) :
  StronglySorted (fun a b => (b <= a)%nat) l ->
  StronglySorted (fun a b => (b <= a)%nat) (insert_descending i l).
Proof.
  induction 1 as [|j l Hs IH Hj]; cbn [insert_descending].
  - repeat constructor.
  - destruct (j <=? i)%nat eqn:E.
    + apply Nat.leb_le in E. constructor; [now constructor|].
      constructor; [exact E|].
      eapply Forall_impl; [|exact Hj]. cbv beta. intros; lia.
    + apply Nat.leb_gt in E. constructor; [exact IH|].
      eapply Permutation_Forall; [symmetry; apply insert_descending_perm|].
      constructor; [lia | exact Hj].
Qed.

Lemma sorted_reverse_sorted (l : list nat) :
  StronglySorted (fun a b => (b <= a)%nat) (sorted_reverse l).
Proof.
  induction l as [|i l IH]; [constructor|].
  now apply insert_descending_sorted.
Qed.

Lemma strictly_descending (l : list nat) :
  NoDup l -> StronglySorted (fun a b => (b <= a)%nat) l ->
  StronglySorted (fun a b => (b < a)%nat) l.
Proof.
  induction 2 as [|i l Hs IH Hi]; [constructor|].
  inversion H as [|? ? Hni Hnd]; subst.
  constructor; [now apply IH|].
  rewrite Forall_forall in *. intros j Hj.
  specialize (Hi _ Hj).
  assert (j <> i) by (intros ->; contradiction). lia.
Qed.

Lemma unselected_same_members (sel sel' : list nat) (rows : list table_row) :
  (forall j, In j sel <-> In j sel') ->
  forall k, unselected k sel rows = unselected k sel' rows.
Proof.
  intros Hm. induction rows as [|r rows IH]; intros k; [reflexivity|].
  cbn [unselected].
  assert (E : existsb (Nat.eqb k) sel = existsb (Nat.eqb k) sel').
  { apply eq_true_iff_eq. rewrite !existsb_exists.
    split; intros (j & Hj & Hk); exists j; split; auto; now apply Hm. }
  now rewrite E, !IH.
Qed.

(** The rows [remove_selected_row] leaves. *)
Lemma remove_selected_rows (indexes : list nat) (rows : list table_row) :
  NoDup indexes ->
  fold_left (fun rows row => removeRow row rows) (sorted_reverse indexes) rows
  = unselected 0 indexes rows.
Proof.
  intros Hnd. rewrite remove_descending.
  - apply unselected_same_members. intros j.
    split; apply Permutation_in;
      [apply sorted_reverse_perm | symmetry; apply sorted_reverse_perm].
  - apply strictly_descending; [|apply sorted_reverse_sorted].
    eapply Permutation_NoDup; [symmetry; apply sorted_reverse_perm | exact Hnd].
Qed.

End MoreRows.

(** X14.  For a selection without repeated rows, [remove_selected_row]
    removes exactly the selected rows, keeps the other rows in their
    order, and sets the total label to the sum the remaining rows show;
    numbers of rows the table does not have are ignored. *)
Theorem remove_selected_row_removes (indexes : list nat) (w : window)
    (ds : list Z) :
  NoDup indexes ->
  Forall2 shows (unselected 0 indexes (table w)) ds ->
  remove_selected_row indexes w
  = Ok (mkWindow (date_picker w) (unselected 0 indexes (table w))
          ("Total: " ++ str (sum ds / 60) ++ "h " ++ str (sum ds mod 60) ++ "m")).
Proof.
  intros Hnd Hds. unfold remove_selected_row.
  rewrite (remove_selected_rows _ _ Hnd).
  apply (update_total_label_shows
           (mkWindow (date_picker w) (unselected 0 indexes (table w))
                     (total_label w)) ds Hds).
Qed.

Lemma remove_selected_row_removes_witness :
  remove_selected_row [0%nat; 2%nat; 7%nat] totals_form
  = Ok (mkWindow day [shown_row "" "" placeholder] "Total: 0h 0m").
Proof.
  apply (remove_selected_row_removes [0%nat; 2%nat; 7%nat] totals_form [0]).
  - repeat constructor; simpl; intuition discriminate.
  - apply Forall2_cons; [apply shows_placeholder; reflexivity | apply Forall2_nil].
Defined.

Section MoreLoad.

Lemma append_entries_table (entries : list StudyEntry) : forall w,
  fold_left (fun acc entry => _append_entry entry acc) entries w
  = mkWindow (date_picker w) (table w ++ map row_of_entry entries)
             (total_label w).
Proof.
  induction entries as [|e entries IH]; intros w.
  - cbn [fold_left map]. rewrite app_nil_r. now destruct w.
  - cbn [fold_left map]. rewrite IH.
    cbn [_append_entry date_picker table total_label].
    now rewrite <- app_assoc.
Qed.

Lemma shows_rows_of_entries (entries : list StudyEntry) :
  Forall2 shows (map row_of_entry entries) (map duration_minutes entries).
Proof.
  induction entries as [|e entries IH]; [constructor|].
  cbn [map]. constructor; [|exact IH]. now apply shows_duration.
Qed.

Lemma set_row_last (rows : list table_row) (r r0 : table_row) :
  set_row (List.length rows) r (rows ++ [r0]) = (rows ++ [r])%list.
Proof.
  induction rows as [|r1 rows IH]; [reflexivity|].
  cbn [List.length app set_row]. now rewrite IH.
Qed.

Lemma sum_app (ds1 ds2 : list Z) : sum (ds1 ++ ds2) = sum ds1 + sum ds2.
Proof.
  induction ds1 as [|d ds1 IH]; [reflexivity|].
  cbn [app sum fold_right]. fold (sum (ds1 ++ ds2)). fold (sum ds1). lia.
Qed.

Lemma sum_perm (ds1 ds2 : list Z) : Permutation ds1 ds2 -> sum ds1 = sum ds2.
Proof.
  induction 1 as [|d l1 l2 _ IH|d1 d2 l|l1 l2 l3 _ IH1 _ IH2];
    cbn [sum fold_right] in *; try fold (sum l1) in *; try fold (sum l2) in *;
    try fold (sum l) in *; lia.
Qed.

Lemma add_empty_row_spec (w : window) (ds : list Z) :
  Forall2 shows (table w) ds ->
  add_empty_row w
  = Ok (mkWindow (date_picker w) (table w ++ [blank_row])
          (total_text (sum ds))).
Proof.
  intros Hds. unfold add_empty_row, _update_duration_for_row.
  cbn [table date_picker total_label hd CATEGORY_OPTIONS].
  fold blank_row. rewrite nth_error_last.
  cbn [blank_row start_item end_item duration_item].
  change (minutes_between (strip "") (strip "")) with (Raise (A:=Z) ValueError).
  cbv beta iota delta [bind].
  change (set_duration_text blank_row placeholder) with blank_row.
  rewrite set_row_last.
  assert (H : Forall2 shows (table w ++ [blank_row]) (ds ++ [0])).
  { apply Forall2_app; [exact Hds|].
    constructor; [now apply shows_placeholder | constructor]. }
  rewrite (update_total_label_shows
             (mkWindow (date_picker w) (table w ++ [blank_row]) (total_label w))
             _ H).
  cbn [date_picker table]. rewrite sum_app. cbn [sum fold_right].
  now rewrite Z.add_0_r.
Qed.

(** [load_entries_for_date] as a function of what the day reads as. *)
Lemma load_entries_spec (w : window) (wd : world) :
  load_entries_for_date w wd
  = Ok (mkWindow (date_picker w)
          match fetch_entries (date_picker w) (storage wd) with
          | [] => [blank_row]
          | _ :: _ =>
              map row_of_entry (fetch_entries (date_picker w) (storage wd))
          end
          (total_text
             (sum (map duration_minutes
                     (fetch_entries (date_picker w) (storage wd)))))).
Proof.
  unfold load_entries_for_date. rewrite append_entries_table.
  cbn [date_picker table total_label app].
  destruct (fetch_entries (date_picker w) (storage wd)) as [|e es] eqn:Hf.
  - cbn [map].
    rewrite (add_empty_row_spec
               (mkWindow (date_picker w) [] (total_label w)) []
               (Forall2_nil _)).
    cbn [bind].
    cbn [date_picker table app].
    rewrite (update_total_label_shows
               (mkWindow (date_picker w) [blank_row] (total_text (sum [])))
               [0]).
    + reflexivity.
    + constructor; [now apply shows_placeholder | constructor].
  - cbn [bind].
    apply (update_total_label_shows
             (mkWindow (date_picker w) (map row_of_entry (e :: es))
                       (total_label w))
             _ (shows_rows_of_entries (e :: es))).
Qed.

Lemma format_not_placeholder (m : Z) : _format_minutes m <> placeholder.
Proof.
  intros H. unfold _format_minutes in H.
  destruct (negb (m / 60 =? 0)).
  - pose proof (numeral_not_placeholder (m / 60)
                  ("h " ++ str (m mod 60) ++ "m")) as Hn.
    rewrite H, String.eqb_refl in Hn. discriminate.
  - pose proof (numeral_not_placeholder (m mod 60) "m") as Hn.
    rewrite H, String.eqb_refl in Hn. discriminate.
Qed.

Lemma selector_text_listed (c : string) :
  In c CATEGORY_OPTIONS -> selector_text c = c.
Proof.
  intros H. unfold selector_text.
  replace (existsb (String.eqb c) CATEGORY_OPTIONS) with true; [reflexivity|].
  symmetry. apply existsb_exists. exists c. split; [exact H|].
  apply String.eqb_refl.
Qed.

Lemma selector_text_not_empty (c : string) :
  is_empty (selector_text c) = false.
Proof.
  unfold selector_text.
  destruct (existsb (String.eqb c) CATEGORY_OPTIONS) eqn:E; [|reflexivity].
  apply existsb_exists in E as (x & Hx & Hc).
  apply String.eqb_eq in Hc. subst x.
  destruct Hx as [<-|[<-|[<-|[]]]]; reflexivity.
Qed.

Lemma reselected_listed (e : StudyEntry) : listed_category e -> reselected e = e.
Proof.
  intros H. unfold reselected. rewrite (selector_text_listed _ H).
  now destruct e.
Qed.

(** A saved entry, shown as a row, is collected with the category its
    selector shows. *)
Lemma entry_of_row_of_entry (d : string) (e : StudyEntry) :
  saved_entry d e ->
  entry_of_table_row d (row_of_entry e) = [reselected e]
  /\ fails_to_parse (row_of_entry e) = false.
Proof.
  intros (Hd & Hs & He & _ & Hm & _).
  unfold entry_of_table_row, fails_to_parse, row_of_entry, reselected.
  cbn [start_item end_item category_widget].
  rewrite selector_text_not_empty, Hs, He.
  rewrite minutes_between_spec in Hm.
  destruct (time_of_text (start_time e)) as [ts|]; [|discriminate].
  destruct (time_of_text (end_time e)) as [te|]; [|discriminate].
  injection Hm as Hm. unfold duration_between. rewrite Hm, <- Hd.
  split; reflexivity.
Qed.

Lemma parsed_rows_of_entries (d : string) (entries : list StudyEntry) :
  Forall (saved_entry d) entries ->
  parsed_entries d (map row_of_entry entries) = map reselected entries
  /\ forall k, offending_rows_from k (map row_of_entry entries) = [].
Proof.
  induction 1 as [|e entries He _ [IHp IHo]]; [now split|].
  destruct (entry_of_row_of_entry d e He) as [Hp Hf].
  cbn [map parsed_entries flat_map offending_rows_from].
  fold (parsed_entries d (map row_of_entry entries)).
  rewrite Hp, Hf, IHp. split; [reflexivity|]. intros k. apply IHo.
Qed.

Lemma map_reselected_listed (entries : list StudyEntry) :
  Forall listed_category entries -> map reselected entries = entries.
Proof.
  induction 1 as [|e entries He _ IH]; [reflexivity|].
  cbn [map]. now rewrite (reselected_listed _ He), IH.
Qed.

End MoreLoad.

(** X15.  On a form whose rows show durations or the placeholder,
    [add_empty_row] appends one row with empty times, the first category
    and the placeholder, keeps the rows there are, and shows the same
    total as before. *)
Theorem add_empty_row_appends (w : window) (ds : list Z) :
  Forall2 shows (table w) ds ->
  add_empty_row w
  = Ok (mkWindow (date_picker w) (table w ++ [blank_row])
          ("Total: " ++ str (sum ds / 60) ++ "h " ++ str (sum ds mod 60) ++ "m")).
Proof. apply add_empty_row_spec. Qed.

Lemma add_empty_row_appends_witness :
  add_empty_row totals_form
  = Ok (mkWindow day (table totals_form ++ [blank_row]) "Total: 2h 15m").
Proof.
  apply (add_empty_row_appends totals_form [90; 0; 45]).
  apply Forall2_cons; [apply (shows_duration _ 90); reflexivity|].
  apply Forall2_cons; [apply shows_placeholder; reflexivity|].
  apply Forall2_cons; [apply (shows_duration _ 45); reflexivity|].
  apply Forall2_nil.
Defined.

(** X16.  [load_entries_for_date] never raises.  A day without entries
    loads as one blank row; a day with entries loads as one row for each
    entry, in the order of the fetch, with the stored times, the stored
    duration as text and empty notes.  The selector of a row shows the
    stored category when it is one of [CATEGORY_OPTIONS] and the first
    option otherwise.  The total label shows the sum of the stored
    durations.  The rows the form had before are gone. *)
Theorem load_entries_shows_the_day (w : window) (wd : world) :
  load_entries_for_date w wd
  = Ok (mkWindow (date_picker w)
          match fetch_entries (date_picker w) (storage wd) with
          | [] => [blank_row]
          | _ :: _ =>
              map row_of_entry (fetch_entries (date_picker w) (storage wd))
          end
          ("Total: "
           ++ str (sum (map duration_minutes
                          (fetch_entries (date_picker w) (storage wd))) / 60)
           ++ "h "
           ++ str (sum (map duration_minutes
                          (fetch_entries (date_picker w) (storage wd))) mod 60)
           ++ "m")).
Proof. apply load_entries_spec. Qed.

(** X17.  Loading a day whose stored entries are as [collect_entries]
    makes them, at least one of them, gives a form that collects without
    an error to the fetched entries, in the order of the fetch, each
    with its category when that is one of [CATEGORY_OPTIONS] and with the
    first option otherwise.  So a day whose categories are all among the
    options can be saved again as it is, and any other category is
    replaced when the loaded day is saved. *)
Theorem load_then_collect (w : window) (wd : world) :
  Forall (saved_entry (date_picker w))
         (fetch_entries (date_picker w) (storage wd)) ->
  fetch_entries (date_picker w) (storage wd) <> [] ->
  exists w',
    load_entries_for_date w wd = Ok w'
    /\ collect_entries w'
       = Ok (map reselected (fetch_entries (date_picker w) (storage wd)), [])
    /\ (Forall listed_category (fetch_entries (date_picker w) (storage wd)) ->
        collect_entries w'
        = Ok (fetch_entries (date_picker w) (storage wd), [])).
Proof.
  intros Hs Hne. rewrite load_entries_spec. eexists. split; [reflexivity|].
  rewrite collect_entries_spec. cbn [date_picker table].
  destruct (fetch_entries (date_picker w) (storage wd)) as [|e es] eqn:Hf;
    [contradiction|].
  destruct (parsed_rows_of_entries _ _ Hs) as [Hp Ho].
  unfold offending_rows. rewrite Hp, Ho. split; [reflexivity|].
  intros Hl. now rewrite (map_reselected_listed _ Hl).
Qed.

Lemma load_then_collect_witness :
  exists w',
    load_entries_for_date (form_of [])
      (mkWorld (replace_day day [mkStudyEntry day "08:00" "09:00" "Math" 60]
                  empty_disk) [])
    = Ok w'
    /\ collect_entries w'
       = Ok ([mkStudyEntry day "08:00" "09:00" "GenAI" 60], [])
    /\ (Forall listed_category [mkStudyEntry day "08:00" "09:00" "Math" 60] ->
        collect_entries w'
        = Ok ([mkStudyEntry day "08:00" "09:00" "Math" 60], [])).
Proof.
  apply (load_then_collect (form_of [])
           (mkWorld (replace_day day [mkStudyEntry day "08:00" "09:00" "Math" 60]
                       empty_disk) [])).
  - apply Forall_cons; [|apply Forall_nil].
    repeat split; vm_compute; congruence.
  - discriminate.
Defined.

(** X18.  A day without entries loads as one blank row, and saving the
    form as loaded is refused with a warning for row 1; the store is left
    as it is. *)
Theorem empty_day_loads_a_row_that_blocks_save (w : window) (wd : world) :
  fetch_entries (date_picker w) (storage wd) = [] ->
  exists w',
    load_entries_for_date w wd = Ok w'
    /\ table w' = [blank_row]
    /\ total_label w' = "Total: 0h 0m"
    /\ save_entries w' wd
       = (Ok tt,
          mkWorld (storage wd)
            (dialogs wd
             ++ [(Warning, "Validation errors",
                  "Row 1: invalid time format (use HH:MM).")])).
Proof.
  intros Hf. rewrite load_entries_spec, Hf. eexists.
  split; [reflexivity|]. split; [reflexivity|]. split; [reflexivity|].
  rewrite save_entries_invalid; [reflexivity | discriminate].
Qed.

Lemma empty_day_loads_a_row_that_blocks_save_witness :
  exists w',
    load_entries_for_date (form_of []) (mkWorld empty_disk []) = Ok w'
    /\ table w' = [blank_row]
    /\ total_label w' = "Total: 0h 0m"
    /\ save_entries w' (mkWorld empty_disk [])
       = (Ok tt,
          mkWorld empty_disk
            [(Warning, "Validation errors",
              "Row 1: invalid time format (use HH:MM).")]).
Proof.
  apply (empty_day_loads_a_row_that_blocks_save (form_of [])
           (mkWorld empty_disk [])).
  reflexivity.
Defined.

(** X19.  After a save of rows that all parse, at least one of them,
    loading the date shows the saved entries in ascending order of their
    start texts, each with the duration that was computed at the save as
    text and with empty notes, and as total the sum of these durations.
    The selector of a row shows the saved category when it is one of
    [CATEGORY_OPTIONS] and the first option otherwise. *)
Theorem save_then_load (w : window) (wd : world) :
  offending_rows (table w) = [] ->
  parsed_entries (date_picker w) (table w) <> [] ->
  load_entries_for_date w (snd (save_entries w wd))
  = Ok (mkWindow (date_picker w)
          (map row_of_entry
             (sort_entries (parsed_entries (date_picker w) (table w))))
          ("Total: "
           ++ str (sum (map duration_minutes
                          (parsed_entries (date_picker w) (table w))) / 60)
           ++ "h "
           ++ str (sum (map duration_minutes
                          (parsed_entries (date_picker w) (table w))) mod 60)
           ++ "m")).
Proof.
  intros He Hn. rewrite load_entries_spec, (save_entries_valid _ _ He Hn).
  cbn [snd storage].
  rewrite (fetch_after_replace _ _ _ (parsed_entries_dated _ _)), map_order_by,
    entry_of_new_rows.
  set (es := parsed_entries (date_picker w) (table w)) in *.
  assert (Hs : sum (map duration_minutes (sort_entries es))
               = sum (map duration_minutes es)).
  { apply sum_perm, Permutation_map, sort_entries_perm. }
  rewrite Hs.
  destruct (sort_entries es) as [|e l] eqn:E; [|reflexivity].
  exfalso. apply Hn.
  apply Permutation_nil. rewrite <- E. apply sort_entries_perm.
Qed.

Lemma save_then_load_witness :
  load_entries_for_date evening_form
    (snd (save_entries evening_form (mkWorld disk_with_morning [])))
  = Ok (mkWindow day [shown_row "20:00" "21:00" "1h 0m"] "Total: 1h 0m").
Proof.
  apply (save_then_load evening_form (mkWorld disk_with_morning [])).
  - reflexivity.
  - discriminate.
Defined.

Section MoreDisplay.

Lemma fails_to_parse_display (r : table_row) (s e c : string) :
  start_item r = Some s -> end_item r = Some e -> category_widget r = Some c ->
  (duration_text s e = placeholder
   <-> fails_to_parse (set_duration_text r (duration_text s e)) = true).
Proof.
  intros Hs He Hc. unfold fails_to_parse, duration_text.
  cbn [set_duration_text start_item end_item category_widget].
  rewrite Hs, He, Hc.
  destruct (time_of_text (strip s)) as [ts|]; [|tauto].
  destruct (time_of_text (strip e)) as [te|]; [|tauto].
  split; [|discriminate]. intros H. now apply format_not_placeholder in H.
Qed.

Lemma In_offending_row (rows : list table_row) (i : nat) (r : table_row) :
  nth_error rows i = Some r ->
  (In (Z.of_nat i + 1) (offending_rows rows) <-> fails_to_parse r = true).
Proof.
  intros Hr. unfold offending_rows. rewrite offending_rows_from_iff. split.
  - intros (j & r' & Hj & Hf & Hij).
    assert (j = i) by lia. subst j. congruence.
  - intros Hf. exists i, r. repeat split; auto. lia.
Qed.

End MoreDisplay.

(** X20.  [_on_time_changed] does nothing for a cell outside the columns
    From and To.  For a cell of these columns, in a row that has its
    items and its category selector, it leaves the texts of the row as
    they are and sets the duration display so that the row shows the
    placeholder exactly when the errors [collect_entries] then returns
    hold the line of that row: what the form shows as invalid is what a
    save refuses. *)
Theorem time_change_shows_what_save_refuses
    (w : window) (row : nat) (column : Z) (r : table_row) (s e c t0 : string) :
  nth_error (table w) row = Some r ->
  start_item r = Some s -> end_item r = Some e ->
  category_widget r = Some c -> duration_item r = Some t0 ->
  Forall displayed (table w) ->
  (column <> 0 -> column <> 1 -> _on_time_changed row column w = Ok w)
  /\ (column = 0 \/ column = 1 ->
      exists w' r' entries errors,
        _on_time_changed row column w = Ok w'
        /\ nth_error (table w') row = Some r'
        /\ same_input r r'
        /\ collect_entries w' = Ok (entries, errors)
        /\ (duration_item r' = Some placeholder
            <-> In (error_line (Z.of_nat row + 1)) errors)).
Proof.
  intros Hr Hs He Hc Ht Hall. split.
  - intros H0 H1. unfold _on_time_changed.
    replace (column =? 0) with false by lia.
    replace (column =? 1) with false by lia. reflexivity.
  - intros Hcol. unfold _on_time_changed.
    replace ((column =? 0) || (column =? 1)) with true by lia. cbn [negb].
    destruct (update_duration_row w row r s e t0 Hr Hs He Ht Hall)
      as (w' & Hw & Hn & _).
    exists w', (set_duration_text r (duration_text s e)).
    do 2 eexists.
    split; [exact Hw|]. split; [exact Hn|]. split; [repeat split|].
    split; [apply collect_entries_spec|].
    rewrite in_map_iff. cbn [set_duration_text duration_item]. split.
    + intros H. injection H as H.
      exists (Z.of_nat row + 1). split; [reflexivity|].
      apply (In_offending_row _ _ _ Hn).
      now apply (fails_to_parse_display r s e c Hs He Hc).
    + intros (n & Hn' & Hin). apply error_line_inj in Hn'. subst n.
      apply (In_offending_row _ _ _ Hn) in Hin.
      apply (fails_to_parse_display r s e c Hs He Hc) in Hin. now rewrite Hin.
Qed.

Lemma time_change_shows_what_save_refuses_witness :
  (1 <> 0 -> 1 <> 1 ->
   _on_time_changed 0 1 (form_of [typed_row "09:00" "25:00"])
   = Ok (form_of [typed_row "09:00" "25:00"]))
  /\ (1 = 0 \/ 1 = 1 ->
      exists w' r' entries errors,
        _on_time_changed 0 1 (form_of [typed_row "09:00" "25:00"]) = Ok w'
        /\ nth_error (table w') 0 = Some r'
        /\ same_input (typed_row "09:00" "25:00") r'
        /\ collect_entries w' = Ok (entries, errors)
        /\ (duration_item r' = Some placeholder
            <-> In (error_line (Z.of_nat 0 + 1)) errors)).
Proof.
  apply (time_change_shows_what_save_refuses
           (form_of [typed_row "09:00" "25:00"]) 0%nat 1
           (typed_row "09:00" "25:00") "09:00" "25:00" "GenAI" placeholder).
  - reflexivity.
  - reflexivity.
  - reflexivity.
  - reflexivity.
  - reflexivity.
  - apply Forall_cons; [|apply Forall_nil].
    exists 0. apply shows_placeholder. reflexivity.
Defined.
